(** * Actor-critic model manager: normalization coordination, metric caching,
      policy wrapper and train-loop wiring

    A shallow embedding of [reagent/workflow/model_managers/actor_critic_base.py].

    Python objects become records, [Optional[T]] becomes [option T], dicts
    become [gmap], Python ints become [Z].  Methods of the manager run in a
    small state-and-exception monad whose state holds the manager object
    ([self], mutated by the [metrics_to_score] cache) and the ordered log of
    calls made to external collaborators.  An exception keeps the state
    reached when it was raised, as in Python.  The [logger.info] lines are
    left out: they neither fail nor touch the manager or a collaborator.
    Gradient tracking ([torch.no_grad]) is outside the model. *)

From stdpp Require Import base option list gmap strings.

Open Scope string_scope.
Open Scope list_scope.
Open Scope Z_scope.

(** ** Exceptions *)

(** [assert c, msg] raises [AssertionError (Some msg)], a bare [assert c]
    raises [AssertionError None]; collaborators may raise anything. *)
Inductive exn :=
| AssertionError (msg : option string)
| UpstreamError (what : string).

Inductive outcome (A : Type) :=
| Ok (a : A)
| Raise (e : exn).
Arguments Ok {A} a.
Arguments Raise {A} e.

Definition is_Ok {A} (o : outcome A) : bool :=
  match o with Ok _ => true | Raise _ => false end.

(** ** Enumerations *)

(** Modelled from the spec: [reagent.parameters.NormalizationKey] is not in
    the sources at hand; the spec gives it as the enumeration {STATE, ACTION}. *)
Module NormalizationKey.
Inductive t := STATE | ACTION.

#[global] Instance eq_dec : EqDecision t.
Proof. solve_decision. Defined.

#[global] Instance countable : Countable t.
Proof.
  refine (inj_countable'
            (λ k, match k with STATE => false | ACTION => true end)
            (λ b : bool, if b then ACTION else STATE) _).
  by intros [].
Defined.
End NormalizationKey.

(** Modelled from the spec: [reagent.preprocessing.types.InputColumn] is not
    in the sources at hand; the two selectors the manager uses are the fixed
    "state" and "action" input column selectors. *)
Module InputColumn.
Inductive t := STATE_FEATURES | ACTION.

#[global] Instance eq_dec : EqDecision t.
Proof. solve_decision. Defined.
End InputColumn.

(** ** Preprocessing options and feature configuration *)

(** Modelled from the spec: [reagent.workflow.types.PreprocessingOptions] is
    not in the sources at hand.  The spec lists its recognised options:
    [whitelist_features], an optional list of feature ids, and
    [feature_overrides], an optional map from feature id to the name of an
    override transform.  A default-constructed value has both unset. *)
Record PreprocessingOptions := {
  whitelist_features : option (list Z);
  feature_overrides : option (gmap Z string);
}.

Definition PreprocessingOptions_default : PreprocessingOptions :=
  {| whitelist_features := None; feature_overrides := None |}.

(** [opts._replace(whitelist_features=w)] *)
Definition replace_whitelist (w : list Z) (opts : PreprocessingOptions)
  : PreprocessingOptions :=
  {| whitelist_features := Some w;
     feature_overrides := feature_overrides opts |}.

(** [opts._replace(whitelist_features=w, feature_overrides=fo)] *)
Definition replace_whitelist_overrides (w : list Z) (fo : gmap Z string)
    (opts : PreprocessingOptions) : PreprocessingOptions :=
  {| whitelist_features := Some w; feature_overrides := Some fo |}.

(** [options or PreprocessingOptions()]: an options object is always truthy,
    so only [None] is replaced by the default. *)
Definition or_default (o : option PreprocessingOptions) : PreprocessingOptions :=
  match o with
  | Some opts => opts
  | None => PreprocessingOptions_default
  end.

Record FloatFeatureInfo := {
  feature_name : string;
  feature_id : Z;
}.

Record ModelFeatureConfig := {
  float_feature_infos : list FloatFeatureInfo;
}.

(** Modelled from the spec: [reagent.preprocessing.normalization.get_feature_config]
    is not in the sources at hand.  It turns a list of (feature-id,
    feature-name) pairs into the ordered list of float-feature descriptors,
    order preserved and duplicates kept; an absent list gives the empty
    configuration. *)
Definition get_feature_config (float_features : option (list (Z * string)))
  : ModelFeatureConfig :=
  {| float_feature_infos :=
       (λ p, {| feature_name := p.2; feature_id := p.1 |})
         <$> default [] float_features |}.

(** [[ffi.feature_id for ffi in config.float_feature_infos]] *)
Definition feature_ids (config : ModelFeatureConfig) : list Z :=
  feature_id <$> float_feature_infos config.

(** [{fid: override for fid in features}]: keys are inserted one at a time,
    a repeated key is overwritten. *)
Definition broadcast_override (override : string) (features : list Z)
  : gmap Z string :=
  foldl (λ d fid, <[fid := override]> d) ∅ features.

(** ** Opaque collaborator data *)

(** Types this layer only passes through. *)
Class Opaque := {
  TableSpec : Type;
  NormalizationParameters : Type;
  Dataset : Type;
  ReaderOptions : Type;
  Trainer : Type;
  Float : Type;
  ModelBase : Type;
  Report : Type;
}.

Section Manager.
Context `{Opaque}.

Record NormalizationData := {
  dense_normalization_parameters : gmap Z NormalizationParameters;
}.

Record RewardOptions := {
  custom_reward_expression : option string;
  metric_reward_values : option (gmap string Float);
}.

Record EvaluationParameters := {
  calc_cpe_in_training : bool;
}.

(** The configured actor-network builder ([self.actor_net_builder.value]). *)
Record ActorNetBuilder := {
  default_action_preprocessing : string;
}.

(** [Preprocessor(normalization_parameters, use_gpu=...)] *)
Record Preprocessor := {
  normalization_parameters : gmap Z NormalizationParameters;
  pp_use_gpu : bool;
}.

Record PolicyNetworkBatchPreprocessor := {
  state_preprocessor : Preprocessor;
  action_preprocessor : Preprocessor;
  bp_use_gpu : bool;
}.

(** [ActorCriticReporter()] takes no argument. *)
Inductive ActorCriticReporter := ActorCriticReporter_new.

Record Evaluator := {
  action_names : option (list string);
  gamma : Float;
  model : Trainer;
  ev_metrics_to_score : list string;
}.

(** Keyword arguments of the call to [train_and_evaluate_generic]. *)
Record DriverArgs := {
  drv_train_dataset : Dataset;
  drv_eval_dataset : option Dataset;
  drv_trainer : Trainer;
  drv_num_epochs : Z;
  drv_use_gpu : bool;
  drv_batch_preprocessor : PolicyNetworkBatchPreprocessor;
  drv_reporter : ActorCriticReporter;
  drv_evaluator : Evaluator;
  drv_reader_options : option ReaderOptions;
}.

Inductive RLTrainingReport := make_union_instance (r : Report).

Record RLTrainingOutput := {
  training_report : RLTrainingReport;
}.

(** ** The manager object *)

(** What the object holds when [__post_init_post_parse__] starts: the
    dataclass fields, the builder field every concrete subclass declares, and
    the values the properties inherited from [ModelManager] yield (its source
    is not at hand, so each is taken as given: a value or the exception the
    property raises). *)
Record ActorCriticFields := {
  state_preprocessing_options : option PreprocessingOptions;
  action_preprocessing_options : option PreprocessingOptions;
  action_feature_override : option string;
  state_float_features : option (list (Z * string));
  action_float_features : list (Z * string);
  reader_options : option ReaderOptions;
  eval_parameters : EvaluationParameters;
  actor_net_builder : ActorNetBuilder;
  trainer : outcome Trainer;
  use_gpu : outcome bool;
  rl_parameters_gamma : outcome Float;
  state_normalization_data : outcome NormalizationData;
  action_normalization_data : outcome NormalizationData;
}.

Record ActorCriticBase := {
  fields :> ActorCriticFields;
  _reward_options : option RewardOptions;
  _state_preprocessing_options : option PreprocessingOptions;
  _action_preprocessing_options : option PreprocessingOptions;
  _metrics_to_score : option (list string);
  _actor_network : option ModelBase;
  _q1_network : option ModelBase;
}.

(** ** External capabilities and the call log *)

Record Capabilities := {
  identify_normalization_parameters :
    TableSpec → InputColumn.t → PreprocessingOptions →
    outcome (gmap Z NormalizationParameters);
  (** annotated as returning [List[str]] *)
  get_metrics_to_score : option (gmap string Float) → list string;
  (** [trainer.add_observer(reporter)] *)
  trainer_add_observer : Trainer → ActorCriticReporter → outcome unit;
  train_and_evaluate_generic : DriverArgs → outcome unit;
  (** [reporter.generate_training_report()] once the driver has run *)
  generate_training_report : DriverArgs → Report;
}.

Inductive Event :=
| CallIdentify (ts : TableSpec) (col : InputColumn.t) (opts : PreprocessingOptions)
| CallGetMetricsToScore (mrv : option (gmap string Float))
| CallTrainerAddObserver (t : Trainer) (r : ActorCriticReporter)
| CallEvaluatorAddObserver (e : Evaluator) (r : ActorCriticReporter)
| CallDriver (args : DriverArgs)
| CallGenerateReport (r : ActorCriticReporter).

Record World := {
  self : ActorCriticBase;
  log : list Event;
}.

(** ** The monad *)

Definition M (A : Type) : Type := World → outcome A * World.

#[global] Instance M_ret : MRet M := λ A a w, (Ok a, w).
#[global] Instance M_bind : MBind M := λ A B f c w,
  match c w with
  | (Ok a, w') => f a w'
  | (Raise e, w') => (Raise e, w')
  end.

Definition raise {A} (e : exn) : M A := λ w, (Raise e, w).

(** [assert c, msg] *)
Definition assert_ (c : bool) (msg : option string) : M unit :=
  if c then mret tt else raise (AssertionError msg).

Definition get_self : M ActorCriticBase := λ w, (Ok (self w), w).

Definition put_self (m : ActorCriticBase) : M unit :=
  λ w, (Ok tt, {| self := m; log := log w |}).

(** A call that leaves the manager: logged first, then it returns or raises. *)
Definition emit (ev : Event) : M unit :=
  λ w, (Ok tt, {| self := self w; log := log w ++ [ev] |}).

Definition lift {A} (o : outcome A) : M A := λ w, (o, w).


(** ** Methods of [ActorCriticBase] *)

Definition whitelist_is_none (o : option PreprocessingOptions) : bool :=
  match o with
  | None => true
  | Some opts =>
      match whitelist_features opts with None => true | Some _ => false end
  end.

Definition state_whitelist_msg : string :=
  "Please set state whitelist features in state_float_features field of config instead".

Definition action_whitelist_msg : string :=
  "Please set action whitelist features in action_float_features field of config instead".

(** Runs once the dataclass fields are set.  [super().__init__()] leaves the
    reward options unattached. *)
Definition __post_init_post_parse__ (f : ActorCriticFields)
  : outcome ActorCriticBase :=
  if negb (whitelist_is_none (state_preprocessing_options f)) then
    Raise (AssertionError (Some state_whitelist_msg))
  else if negb (whitelist_is_none (action_preprocessing_options f)) then
    Raise (AssertionError (Some action_whitelist_msg))
  else
    Ok {| fields := f;
          _reward_options := None;
          _state_preprocessing_options := state_preprocessing_options f;
          _action_preprocessing_options := action_preprocessing_options f;
          _metrics_to_score := None;
          _actor_network := None;
          _q1_network := None |}.

Definition should_generate_eval_dataset (m : ActorCriticBase) : bool :=
  calc_cpe_in_training (eval_parameters m).

Definition set_metrics_to_score (v : list string) (m : ActorCriticBase)
  : ActorCriticBase :=
  {| fields := fields m;
     _reward_options := _reward_options m;
     _state_preprocessing_options := _state_preprocessing_options m;
     _action_preprocessing_options := _action_preprocessing_options m;
     _metrics_to_score := Some v;
     _actor_network := _actor_network m;
     _q1_network := _q1_network m |}.

Section Methods.
Variable caps : Capabilities.

(** Property [metrics_to_score]. *)
Definition metrics_to_score : M (list string) :=
  get_self ≫= λ m : ActorCriticBase,
  match _reward_options m with
  | None => raise (AssertionError None)
  | Some reward_options =>
      match _metrics_to_score m with
      | None =>
          let mrv := metric_reward_values reward_options in
          emit (CallGetMetricsToScore mrv);;
          let v := get_metrics_to_score caps mrv in
          put_self (set_metrics_to_score v m);;
          mret v
      | Some v => mret v
      end
  end.

(** Property [state_feature_config]. *)
Definition state_feature_config (m : ActorCriticBase) : ModelFeatureConfig :=
  get_feature_config (state_float_features m).

Definition action_features_msg : string := "You must set action_float_features".

(** Property [action_feature_config]. *)
Definition action_feature_config : M ModelFeatureConfig :=
  get_self ≫= λ m : ActorCriticBase,
  assert_ (bool_decide (0 < length (action_float_features m))%nat)
          (Some action_features_msg);;
  mret (get_feature_config (Some (action_float_features m))).

Definition identify (ts : TableSpec) (col : InputColumn.t)
    (opts : PreprocessingOptions) : M (gmap Z NormalizationParameters) :=
  emit (CallIdentify ts col opts);;
  lift (identify_normalization_parameters caps ts col opts).

(** The override passed for every action feature: the builder default,
    replaced by the manager's own when that is set. *)
Definition resolve_action_feature_override (m : ActorCriticBase) : string :=
  let action_feature_override_ :=
    default_action_preprocessing (actor_net_builder m) in
  match action_feature_override m with
  | Some o => o
  | None => action_feature_override_
  end.

Definition feature_overrides_is_none (opts : PreprocessingOptions) : bool :=
  match feature_overrides opts with None => true | Some _ => false end.

Definition run_feature_identification (input_table_spec : TableSpec)
  : M (gmap NormalizationKey.t NormalizationData) :=
  get_self ≫= λ m : ActorCriticBase,
  (* state feature identification *)
  let state_preprocessing_options_ :=
    or_default (_state_preprocessing_options m) in
  let state_features := feature_ids (state_feature_config m) in
  let state_preprocessing_options_ :=
    replace_whitelist state_features state_preprocessing_options_ in
  state_normalization_parameters ←
    identify input_table_spec InputColumn.STATE_FEATURES
             state_preprocessing_options_;
  (* action feature identification *)
  let action_preprocessing_options_ :=
    or_default (_action_preprocessing_options m) in
  action_config ← action_feature_config;
  let action_features := feature_ids action_config in
  let action_feature_override_ := resolve_action_feature_override m in
  assert_ (feature_overrides_is_none action_preprocessing_options_) None;;
  let action_preprocessing_options_ :=
    replace_whitelist_overrides action_features
      (broadcast_override action_feature_override_ action_features)
      action_preprocessing_options_ in
  action_normalization_parameters ←
    identify input_table_spec InputColumn.ACTION action_preprocessing_options_;
  mret (<[NormalizationKey.ACTION :=
            {| dense_normalization_parameters := action_normalization_parameters |}]>
        (<[NormalizationKey.STATE :=
            {| dense_normalization_parameters := state_normalization_parameters |}]>
         ∅)).

(** Property [required_normalization_keys]. *)
Definition required_normalization_keys (m : ActorCriticBase)
  : list NormalizationKey.t :=
  [NormalizationKey.STATE; NormalizationKey.ACTION].

Definition build_batch_preprocessor : M PolicyNetworkBatchPreprocessor :=
  get_self ≫= λ m : ActorCriticBase,
  state_data ← lift (state_normalization_data m);
  gpu_s ← lift (use_gpu m);
  let state_preprocessor_ :=
    {| normalization_parameters := dense_normalization_parameters state_data;
       pp_use_gpu := gpu_s |} in
  action_data ← lift (action_normalization_data m);
  gpu_a ← lift (use_gpu m);
  let action_preprocessor_ :=
    {| normalization_parameters := dense_normalization_parameters action_data;
       pp_use_gpu := gpu_a |} in
  gpu ← lift (use_gpu m);
  mret {| state_preprocessor := state_preprocessor_;
          action_preprocessor := action_preprocessor_;
          bp_use_gpu := gpu |}.

(** [train]; the fourth argument is the method's own [reader_options]
    parameter. *)
Definition train (train_dataset : Dataset) (eval_dataset : option Dataset)
    (num_epochs : Z) (reader_options_arg : ReaderOptions)
  : M RLTrainingOutput :=
  let reporter := ActorCriticReporter_new in
  get_self ≫= λ m : ActorCriticBase,
  t ← lift (trainer m);
  emit (CallTrainerAddObserver t reporter);;
  lift (trainer_add_observer caps t reporter);;
  g ← lift (rl_parameters_gamma m);
  t_model ← lift (trainer m);
  scored ← metrics_to_score;
  let evaluator :=
    {| action_names := None; gamma := g; model := t_model;
       ev_metrics_to_score := scored |} in
  emit (CallEvaluatorAddObserver evaluator reporter);;
  batch_preprocessor ← build_batch_preprocessor;
  get_self ≫= λ m' : ActorCriticBase,
  t_drv ← lift (trainer m');
  gpu ← lift (use_gpu m');
  let args :=
    {| drv_train_dataset := train_dataset;
       drv_eval_dataset := eval_dataset;
       drv_trainer := t_drv;
       drv_num_epochs := num_epochs;
       drv_use_gpu := gpu;
       drv_batch_preprocessor := batch_preprocessor;
       drv_reporter := reporter;
       drv_evaluator := evaluator;
       drv_reader_options := reader_options m' |} in
  emit (CallDriver args);;
  lift (train_and_evaluate_generic caps args);;
  emit (CallGenerateReport reporter);;
  mret {| training_report :=
            make_union_instance (generate_training_report caps args) |}.

(** [n] reads of the property [metrics_to_score], one after the other; the
    values read, first read first. *)
Fixpoint read_metrics_to_score (n : nat) : M (list (list string)) :=
  match n with
  | O => mret []
  | S k =>
      v ← metrics_to_score;
      vs ← read_metrics_to_score k;
      mret (v :: vs)
  end.

End Methods.

(** Modelled from the spec: reward options are attached to the manager after
    construction by [ModelManager], whose source is not at hand; attaching
    them sets [_reward_options]. *)
Definition attach_reward_options (reward_options : RewardOptions)
    (m : ActorCriticBase) : ActorCriticBase :=
  {| fields := fields m;
     _reward_options := Some reward_options;
     _state_preprocessing_options := _state_preprocessing_options m;
     _action_preprocessing_options := _action_preprocessing_options m;
     _metrics_to_score := _metrics_to_score m;
     _actor_network := _actor_network m;
     _q1_network := _q1_network m |}.

(** ** Reading the call log *)

(** The feature ids listed in the two feature fields, in order. *)
Definition state_feature_ids (m : ActorCriticBase) : list Z :=
  fst <$> default [] (state_float_features m).

Definition action_feature_ids (m : ActorCriticBase) : list Z :=
  fst <$> action_float_features m.

(** The options of the state identification call. *)
Definition state_identification_options (m : ActorCriticBase)
  : PreprocessingOptions :=
  {| whitelist_features := Some (state_feature_ids m);
     feature_overrides :=
       feature_overrides (or_default (_state_preprocessing_options m)) |}.

(** The options of the action identification call. *)
Definition action_identification_options (m : ActorCriticBase)
  : PreprocessingOptions :=
  {| whitelist_features := Some (action_feature_ids m);
     feature_overrides :=
       Some (broadcast_override
               (default (default_action_preprocessing (actor_net_builder m))
                        (action_feature_override m))
               (action_feature_ids m)) |}.

Definition state_call (ts : TableSpec) (m : ActorCriticBase) : Event :=
  CallIdentify ts InputColumn.STATE_FEATURES (state_identification_options m).

Definition action_call (ts : TableSpec) (m : ActorCriticBase) : Event :=
  CallIdentify ts InputColumn.ACTION (action_identification_options m).

Definition resolver_calls (l : list Event)
  : list (option (gmap string Float)) :=
  omap (λ ev, match ev with CallGetMetricsToScore mrv => Some mrv | _ => None end) l.

Definition driver_calls (l : list Event) : list DriverArgs :=
  omap (λ ev, match ev with CallDriver args => Some args | _ => None end) l.

Definition identify_calls (l : list Event)
  : list (TableSpec * InputColumn.t * PreprocessingOptions) :=
  omap (λ ev, match ev with
              | CallIdentify ts col opts => Some (ts, col, opts)
              | _ => None
              end) l.

End Manager.

(** ** Policy wrapper *)

(** The part of [torch.nn.Module] the wrapper touches: the mode flag, and
    whatever else the network holds. *)
Module TorchModule.
Record t (Params : Type) := {
  training : bool;
  parameters : Params;
}.
Arguments training {Params} _.
Arguments parameters {Params} _.

(** [module.eval()] *)
Definition eval {Params} (net : t Params) : t Params :=
  {| training := false; parameters := parameters net |}.

(** [module.train()] *)
Definition train {Params} (net : t Params) : t Params :=
  {| training := true; parameters := parameters net |}.
End TorchModule.

Module ActorPolicyWrapper.
Section Act.
Context {Params FeatureData Tensor : Type}.

(** The network's forward pass: it returns or raises, and may leave the
    network changed. *)
Variable forward :
  TorchModule.t Params → FeatureData → outcome Tensor * TorchModule.t Params.
Variables detach cpu : Tensor → Tensor.

(** [act], as a function of the wrapped network before the call; gives the
    returned output and the network after the call. *)
Definition act (actor_network : TorchModule.t Params) (obs : FeatureData)
  : outcome Tensor * TorchModule.t Params :=
  let actor_network := TorchModule.eval actor_network in
  match forward actor_network obs with
  | (Ok output, actor_network) =>
      let actor_network := TorchModule.train actor_network in
      (Ok (cpu (detach output)), actor_network)
  | (Raise e, actor_network) => (Raise e, actor_network)
  end.

End Act.
End ActorPolicyWrapper.

(** ** Concrete collaborators used to run the model *)

Module Demo.

#[global] Instance opaque : Opaque := {|
  TableSpec := string;
  NormalizationParameters := string;
  Dataset := string;
  ReaderOptions := Z;
  Trainer := string;
  Float := Z;
  ModelBase := unit;
  Report := string;
|}.

(** An identification stub: one fixed parameter per whitelisted feature. *)
Definition stub_identify (ts : string) (col : InputColumn.t)
    (opts : PreprocessingOptions) : outcome (gmap Z string) :=
  Ok (list_to_map ((λ fid, (fid, "params")) <$> default [] (whitelist_features opts))).

Definition caps : Capabilities := {|
  identify_normalization_parameters := stub_identify;
  get_metrics_to_score := λ mrv,
    match mrv with None => [] | Some d => (map_to_list d).*1 end;
  trainer_add_observer := λ _ _, Ok tt;
  train_and_evaluate_generic := λ _, Ok tt;
  generate_training_report := λ _, "report";
|}.

Definition make_fields (state_options action_options : option PreprocessingOptions)
    (override : option string) (state_features : option (list (Z * string)))
    (action_features : list (Z * string)) : ActorCriticFields := {|
  state_preprocessing_options := state_options;
  action_preprocessing_options := action_options;
  action_feature_override := override;
  state_float_features := state_features;
  action_float_features := action_features;
  reader_options := Some 7;
  eval_parameters := {| calc_cpe_in_training := true |};
  actor_net_builder := {| default_action_preprocessing := "O2" |};
  trainer := Ok "trainer";
  use_gpu := Ok false;
  rl_parameters_gamma := Ok 1;
  state_normalization_data := Ok {| dense_normalization_parameters := ∅ |};
  action_normalization_data := Ok {| dense_normalization_parameters := ∅ |};
|}.

(** The object a successful construction leaves behind. *)
Definition constructed (f : ActorCriticFields) : ActorCriticBase := {|
  fields := f;
  _reward_options := None;
  _state_preprocessing_options := state_preprocessing_options f;
  _action_preprocessing_options := action_preprocessing_options f;
  _metrics_to_score := None;
  _actor_network := None;
  _q1_network := None;
|}.

Definition state_features3 : list (Z * string) := [(1, "s1"); (2, "s2"); (3, "s3")].
Definition action_features2 : list (Z * string) := [(10, "a1"); (11, "a2")].

(** Three state features, two action features, nothing else configured. *)
Definition base_fields : ActorCriticFields :=
  make_fields None None None (Some state_features3) action_features2.
Definition manager : ActorCriticBase := constructed base_fields.

(** The same with an explicit override on the manager. *)
Definition manager_O1 : ActorCriticBase :=
  constructed (make_fields None None (Some "O1") (Some state_features3) action_features2).

(** No action features. *)
Definition manager_no_actions : ActorCriticBase :=
  constructed (make_fields None None None (Some state_features3) []).

(** Feature overrides already set on the action options. *)
Definition preset_overrides : PreprocessingOptions :=
  {| whitelist_features := None; feature_overrides := Some {[10 := "X"]} |}.
Definition manager_preset_overrides : ActorCriticBase :=
  constructed (make_fields None (Some preset_overrides) None
                 (Some state_features3) action_features2).

(** A whitelist already set on the action options. *)
Definition preset_whitelist : PreprocessingOptions :=
  {| whitelist_features := Some [10]; feature_overrides := None |}.
Definition fields_preset_whitelist : ActorCriticFields :=
  make_fields None (Some preset_whitelist) None (Some state_features3) action_features2.

(** No state features at all. *)
Definition manager_no_state : ActorCriticBase :=
  constructed (make_fields None None None None action_features2).

Definition reward_options : RewardOptions :=
  {| custom_reward_expression := None;
     metric_reward_values := Some {["clicks" := 2]} |}.

(** A network stub: the forward pass echoes the observation and leaves the
    network as it is. *)
Definition echo_forward (net : TorchModule.t unit) (obs : Z)
  : outcome Z * TorchModule.t unit := (Ok obs, net).

Definition eval_mode_network : TorchModule.t unit :=
  {| TorchModule.training := false; TorchModule.parameters := tt |}.

(** Collaborators that fail. *)
Definition caps_action_identification_fails : Capabilities := {|
  identify_normalization_parameters := λ ts col opts,
    match col with
    | InputColumn.STATE_FEATURES => stub_identify ts col opts
    | InputColumn.ACTION => Raise (UpstreamError "table not found")
    end;
  get_metrics_to_score := get_metrics_to_score caps;
  trainer_add_observer := trainer_add_observer caps;
  train_and_evaluate_generic := train_and_evaluate_generic caps;
  generate_training_report := generate_training_report caps;
|}.

Definition caps_no_observer_support : Capabilities := {|
  identify_normalization_parameters := stub_identify;
  get_metrics_to_score := get_metrics_to_score caps;
  trainer_add_observer := λ _ _, Raise (UpstreamError "no attribute add_observer");
  train_and_evaluate_generic := train_and_evaluate_generic caps;
  generate_training_report := generate_training_report caps;
|}.

Definition caps_driver_fails : Capabilities := {|
  identify_normalization_parameters := stub_identify;
  get_metrics_to_score := get_metrics_to_score caps;
  trainer_add_observer := trainer_add_observer caps;
  train_and_evaluate_generic := λ _, Raise (UpstreamError "out of memory");
  generate_training_report := generate_training_report caps;
|}.

(** The same action feature id listed twice. *)
Definition manager_duplicate_actions : ActorCriticBase :=
  constructed (make_fields None None None (Some state_features3)
                 [(10, "a1"); (10, "a1_again"); (11, "a2")]).

(** Feature overrides set on the state options. *)
Definition state_overrides : PreprocessingOptions :=
  {| whitelist_features := None; feature_overrides := Some {[1 := "CONTINUOUS"]} |}.
Definition fields_state_overrides : ActorCriticFields :=
  make_fields (Some state_overrides) None None (Some state_features3) action_features2.

Definition fields_preset_overrides : ActorCriticFields :=
  make_fields None (Some preset_overrides) None (Some state_features3) action_features2.

Definition reward_options_views : RewardOptions :=
  {| custom_reward_expression := None;
     metric_reward_values := Some {["views" := 5]} |}.

(** A forward pass that raises and leaves the network as it is. *)
Definition failing_forward (net : TorchModule.t unit) (obs : Z)
  : outcome Z * TorchModule.t unit := (Raise (UpstreamError "shape mismatch"), net).

Definition train_mode_network : TorchModule.t unit :=
  {| TorchModule.training := true; TorchModule.parameters := tt |}.

End Demo.

(** * Properties *)

(** ** Feature ids and the broadcast override *)

Section ManagerFacts.
Context `{Opaque}.
Variable caps : Capabilities.

Lemma feature_ids_get_feature_config (fs : option (list (Z * string))) :
  feature_ids (get_feature_config fs) = fst <$> default [] fs.
Proof.
  unfold feature_ids, get_feature_config; cbn.
  rewrite <- list_fmap_compose.
  apply list_fmap_ext; intros ? [fid fname]; reflexivity.
Qed.

Lemma foldl_insert_lookup (ov : string) (ids : list Z) (d : gmap Z string) (fid : Z) :
  foldl (λ d fid, <[fid := ov]> d) d ids !! fid
  = if decide (fid ∈ ids) then Some ov else d !! fid.
Proof.
  revert d; induction ids as [|i ids IH]; intros d; cbn.
  - case_decide as Hin; [by apply elem_of_nil in Hin | done].
  - rewrite IH. destruct (decide (fid ∈ ids)) as [Hin|Hnin].
    + rewrite decide_True; [done | by right].
    + destruct (decide (fid = i)) as [->|Hne].
      * rewrite decide_True; [|by left]. apply lookup_insert_eq.
      * rewrite decide_False.
        -- by apply lookup_insert_ne.
        -- intros [?|?]%elem_of_cons; contradiction.
Qed.

Lemma broadcast_override_lookup (ov : string) (ids : list Z) (fid : Z) :
  broadcast_override ov ids !! fid = if decide (fid ∈ ids) then Some ov else None.
Proof. unfold broadcast_override. by rewrite foldl_insert_lookup, lookup_empty. Qed.

Lemma broadcast_override_dom (ov : string) (ids : list Z) :
  dom (broadcast_override ov ids) = list_to_set ids.
Proof.
  apply set_eq; intros fid.
  rewrite elem_of_dom, broadcast_override_lookup, elem_of_list_to_set.
  case_decide; split; intros Hx; try done; by destruct Hx.
Qed.

Lemma resolve_action_feature_override_default (m : ActorCriticBase) :
  resolve_action_feature_override m
  = default (default_action_preprocessing (actor_net_builder m))
            (action_feature_override m).
Proof. unfold resolve_action_feature_override. by destruct (action_feature_override m). Qed.

(** ** The paths through [run_feature_identification] *)

Lemma state_options_resolved (m : ActorCriticBase) :
  replace_whitelist (feature_ids (state_feature_config m))
    (or_default (_state_preprocessing_options m))
  = state_identification_options m.
Proof.
  unfold replace_whitelist, state_feature_config, state_identification_options.
  by rewrite feature_ids_get_feature_config.
Qed.

Lemma action_options_resolved (m : ActorCriticBase) (opts : PreprocessingOptions) :
  let ids := feature_ids (get_feature_config (Some (action_float_features m))) in
  replace_whitelist_overrides ids
    (broadcast_override (resolve_action_feature_override m) ids) opts
  = action_identification_options m.
Proof.
  cbv zeta. unfold replace_whitelist_overrides, action_identification_options.
  by rewrite feature_ids_get_feature_config, resolve_action_feature_override_default.
Qed.

#[local] Arguments feature_ids : simpl never.
#[local] Arguments get_feature_config : simpl never.
#[local] Arguments replace_whitelist : simpl never.
#[local] Arguments replace_whitelist_overrides : simpl never.
#[local] Arguments broadcast_override : simpl never.
#[local] Arguments state_identification_options : simpl never.
#[local] Arguments action_identification_options : simpl never.

Ltac run_monad :=
  unfold run_feature_identification, identify, action_feature_config,
    assert_, raise, emit, lift, get_self, put_self, mbind, M_bind, mret, M_ret;
  cbn.

Lemma bind_get_self {A} (f : ActorCriticBase → M A) (w : World) :
  (get_self ≫= f) w = f (self w) w.
Proof. reflexivity. Qed.

Ltac enter_run :=
  unfold run_feature_identification;
  rewrite bind_get_self; cbv beta zeta; cbn [self];
  rewrite state_options_resolved; run_monad.

Lemma run_state_identification_raises ts m l e :
  identify_normalization_parameters caps ts InputColumn.STATE_FEATURES
    (state_identification_options m) = Raise e →
  run_feature_identification caps ts {| self := m; log := l |}
  = (Raise e, {| self := m; log := l ++ [state_call ts m] |}).
Proof. intros Hs. enter_run. by rewrite Hs. Qed.

Lemma run_empty_action_features ts m l sp :
  identify_normalization_parameters caps ts InputColumn.STATE_FEATURES
    (state_identification_options m) = Ok sp →
  action_float_features m = [] →
  run_feature_identification caps ts {| self := m; log := l |}
  = (Raise (AssertionError (Some action_features_msg)),
     {| self := m; log := l ++ [state_call ts m] |}).
Proof. intros Hs Ha. enter_run. by rewrite Hs, Ha. Qed.

Lemma run_preset_feature_overrides ts m l sp fo :
  identify_normalization_parameters caps ts InputColumn.STATE_FEATURES
    (state_identification_options m) = Ok sp →
  action_float_features m ≠ [] →
  feature_overrides (or_default (_action_preprocessing_options m)) = Some fo →
  run_feature_identification caps ts {| self := m; log := l |}
  = (Raise (AssertionError None),
     {| self := m; log := l ++ [state_call ts m] |}).
Proof.
  intros Hs Ha Hfo. enter_run. rewrite Hs.
  destruct (action_float_features m) as [|a fs]; [done|]. cbn.
  unfold feature_overrides_is_none. by rewrite Hfo.
Qed.

Lemma run_reaches_action_identification ts m l sp :
  identify_normalization_parameters caps ts InputColumn.STATE_FEATURES
    (state_identification_options m) = Ok sp →
  action_float_features m ≠ [] →
  feature_overrides (or_default (_action_preprocessing_options m)) = None →
  run_feature_identification caps ts {| self := m; log := l |}
  = (match identify_normalization_parameters caps ts InputColumn.ACTION
             (action_identification_options m) with
     | Ok ap =>
         Ok (<[NormalizationKey.ACTION := {| dense_normalization_parameters := ap |}]>
             (<[NormalizationKey.STATE := {| dense_normalization_parameters := sp |}]> ∅))
     | Raise e => Raise e
     end,
     {| self := m; log := l ++ [state_call ts m; action_call ts m] |}).
Proof.
  intros Hs Ha Hfo. enter_run. rewrite Hs.
  rewrite bool_decide_true by (destruct (action_float_features m); [done | cbn; lia]).
  cbn. unfold feature_overrides_is_none. rewrite Hfo. cbn.
  rewrite (action_options_resolved m), <- (assoc_L (++)). cbn.
  by destruct (identify_normalization_parameters caps ts InputColumn.ACTION _).
Qed.

(** ** Claims about [run_feature_identification] *)

(** C1: when the action feature configuration is non-empty, no feature
    overrides were pre-set on the action options and both identification
    calls return, [run_feature_identification] returns a mapping whose keys
    are exactly STATE and ACTION, each bound to the [NormalizationData] built
    from the matching identification result, and this key set is the list
    given by [required_normalization_keys]. *)
Theorem run_feature_identification_keys
    (ts : TableSpec) (m : ActorCriticBase) (l : list Event)
    (sp ap : gmap Z NormalizationParameters) :
  action_float_features m ≠ [] →
  feature_overrides (or_default (_action_preprocessing_options m)) = None →
  identify_normalization_parameters caps ts InputColumn.STATE_FEATURES
    (state_identification_options m) = Ok sp →
  identify_normalization_parameters caps ts InputColumn.ACTION
    (action_identification_options m) = Ok ap →
  ∃ d w',
    run_feature_identification caps ts {| self := m; log := l |} = (Ok d, w') ∧
    dom d = {[NormalizationKey.STATE; NormalizationKey.ACTION]} ∧
    dom d = list_to_set (required_normalization_keys m) ∧
    (map_to_list d).*1 ≡ₚ required_normalization_keys m ∧
    d !! NormalizationKey.STATE = Some {| dense_normalization_parameters := sp |} ∧
    d !! NormalizationKey.ACTION = Some {| dense_normalization_parameters := ap |}.
Proof.
  intros Ha Hfo Hs Hact.
  rewrite (run_reaches_action_identification ts m l sp Hs Ha Hfo), Hact.
  eexists _, _; split; [reflexivity|].
  assert (Hdom : dom (<[NormalizationKey.ACTION := {| dense_normalization_parameters := ap |}]>
                  (<[NormalizationKey.STATE := {| dense_normalization_parameters := sp |}]>
                     (∅ : gmap NormalizationKey.t NormalizationData)))
                 = {[NormalizationKey.STATE; NormalizationKey.ACTION]}).
  { rewrite !dom_insert_L, dom_empty_L. set_solver. }
  split_and!.
  - exact Hdom.
  - rewrite Hdom. unfold required_normalization_keys. cbn. set_solver.
  - unfold required_normalization_keys.
    rewrite map_to_list_insert by (by rewrite lookup_insert_ne, lookup_empty).
    rewrite map_to_list_insert by apply lookup_empty.
    rewrite map_to_list_empty. cbn. apply Permutation_swap.
  - by rewrite lookup_insert_ne, lookup_insert_eq.
  - by rewrite lookup_insert_eq.
Qed.

(** C2: the override handed to the action identification call is the
    manager's [action_feature_override] when that is set and the builder's
    [default_action_preprocessing] otherwise, and the [feature_overrides] map
    of that call sends every action feature id to this one override and has
    no other key. *)
Theorem action_override_precedence
    (ts : TableSpec) (m : ActorCriticBase) (l : list Event)
    (sp : gmap Z NormalizationParameters) :
  identify_normalization_parameters caps ts InputColumn.STATE_FEATURES
    (state_identification_options m) = Ok sp →
  action_float_features m ≠ [] →
  feature_overrides (or_default (_action_preprocessing_options m)) = None →
  ∃ opts fo,
    log (run_feature_identification caps ts {| self := m; log := l |}).2
    = l ++ [state_call ts m; CallIdentify ts InputColumn.ACTION opts] ∧
    feature_overrides opts = Some fo ∧
    dom fo = list_to_set (fst <$> action_float_features m) ∧
    ∀ fid, fid ∈ fst <$> action_float_features m →
      fo !! fid = Some (match action_feature_override m with
                        | Some override => override
                        | None => default_action_preprocessing (actor_net_builder m)
                        end).
Proof.
  intros Hs Ha Hfo.
  rewrite (run_reaches_action_identification ts m l sp Hs Ha Hfo).
  eexists _, _; split_and!; [reflexivity | reflexivity | ..].
  - apply broadcast_override_dom.
  - intros fid Hin. rewrite broadcast_override_lookup.
    rewrite decide_True by exact Hin.
    by destruct (action_feature_override m).
Qed.

(** C4, as the code has it: with an empty action feature configuration
    [run_feature_identification] never returns a mapping and never issues
    the action identification call; the state identification call is issued
    first, and when it returns the failure is the precondition failure of
    [action_feature_config]. *)
Theorem empty_action_features_fail_after_state_call
    (ts : TableSpec) (m : ActorCriticBase) (l : list Event) :
  action_float_features m = [] →
  ∃ e,
    run_feature_identification caps ts {| self := m; log := l |}
    = (Raise e, {| self := m; log := l ++ [state_call ts m] |}) ∧
    (is_Ok (identify_normalization_parameters caps ts InputColumn.STATE_FEATURES
              (state_identification_options m)) = true →
     e = AssertionError (Some "You must set action_float_features")).
Proof.
  intros Ha.
  destruct (identify_normalization_parameters caps ts InputColumn.STATE_FEATURES
              (state_identification_options m)) as [sp|e] eqn:Hs.
  - eexists; split; [by apply (run_empty_action_features ts m l sp)|done].
  - eexists; split; [by apply run_state_identification_raises|done].
Qed.

(** C5, as the code has it: with [feature_overrides] pre-set on the action
    options [run_feature_identification] never returns a mapping and never
    issues the action identification call; the state identification call is
    issued first, and when it returns the failure is an assertion failure. *)
Theorem preset_feature_overrides_fail_after_state_call
    (ts : TableSpec) (m : ActorCriticBase) (l : list Event) (fo : gmap Z string) :
  feature_overrides (or_default (_action_preprocessing_options m)) = Some fo →
  ∃ e,
    run_feature_identification caps ts {| self := m; log := l |}
    = (Raise e, {| self := m; log := l ++ [state_call ts m] |}) ∧
    (is_Ok (identify_normalization_parameters caps ts InputColumn.STATE_FEATURES
              (state_identification_options m)) = true →
     e = AssertionError (if bool_decide (action_float_features m = [])
                         then Some "You must set action_float_features"
                         else None)).
Proof.
  intros Hfo.
  destruct (identify_normalization_parameters caps ts InputColumn.STATE_FEATURES
              (state_identification_options m)) as [sp|e] eqn:Hs.
  - case_bool_decide as Ha.
    + eexists; split; [by apply (run_empty_action_features ts m l sp)|done].
    + eexists; split; [by apply (run_preset_feature_overrides ts m l sp fo)|done].
  - eexists; split; [by apply run_state_identification_raises|done].
Qed.

(** C8: with no state float features (the field absent or an empty list),
    a non-empty action configuration, no pre-set action overrides, an
    identification capability that gives the empty map for an empty
    whitelist and an action identification that returns,
    [run_feature_identification] returns; the state whitelist it resolved is
    empty, the STATE entry holds the empty map and the ACTION entry holds the
    action identification result. *)
Theorem empty_state_features_valid
    (ts : TableSpec) (m : ActorCriticBase) (l : list Event)
    (ap : gmap Z NormalizationParameters) :
  state_float_features m = None ∨ state_float_features m = Some [] →
  action_float_features m ≠ [] →
  feature_overrides (or_default (_action_preprocessing_options m)) = None →
  (∀ opts, whitelist_features opts = Some [] →
     identify_normalization_parameters caps ts InputColumn.STATE_FEATURES opts = Ok ∅) →
  identify_normalization_parameters caps ts InputColumn.ACTION
    (action_identification_options m) = Ok ap →
  ∃ d sopts,
    run_feature_identification caps ts {| self := m; log := l |}
    = (Ok d, {| self := m;
                log := l ++ [CallIdentify ts InputColumn.STATE_FEATURES sopts;
                             action_call ts m] |}) ∧
    whitelist_features sopts = Some [] ∧
    d !! NormalizationKey.STATE = Some {| dense_normalization_parameters := ∅ |} ∧
    d !! NormalizationKey.ACTION = Some {| dense_normalization_parameters := ap |}.
Proof.
  intros Hstate Ha Hfo Hempty Hact.
  assert (Hw : whitelist_features (state_identification_options m) = Some []).
  { unfold state_identification_options, state_feature_ids; cbn.
    by destruct Hstate as [-> | ->]. }
  rewrite (run_reaches_action_identification ts m l ∅ (Hempty _ Hw) Ha Hfo), Hact.
  eexists _, _; split_and!; [reflexivity | exact Hw | ..].
  - by rewrite lookup_insert_ne, lookup_insert_eq.
  - by rewrite lookup_insert_eq.
Qed.

Lemma run_log_cases (ts : TableSpec) (m : ActorCriticBase) (l : list Event) :
  ∃ calls,
    log (run_feature_identification caps ts {| self := m; log := l |}).2 = l ++ calls ∧
    (calls = [state_call ts m] ∨ calls = [state_call ts m; action_call ts m]).
Proof.
  destruct (identify_normalization_parameters caps ts InputColumn.STATE_FEATURES
              (state_identification_options m)) as [sp|e] eqn:Hs.
  - destruct (decide (action_float_features m = [])) as [Ha|Ha].
    + rewrite (run_empty_action_features ts m l sp Hs Ha). eauto.
    + destruct (feature_overrides (or_default (_action_preprocessing_options m)))
        as [fo|] eqn:Hfo.
      * rewrite (run_preset_feature_overrides ts m l sp fo Hs Ha Hfo). eauto.
      * rewrite (run_reaches_action_identification ts m l sp Hs Ha Hfo). eauto.
  - rewrite (run_state_identification_raises ts m l e Hs). eauto.
Qed.

(** ** Construction *)

(** C6: construction fails with an assertion failure when
    [whitelist_features] is set on the state or on the action preprocessing
    options, so no manager exists on which identification could be run with
    such a whitelist; and on every manager that construction yields, each
    identification call made by [run_feature_identification] carries the
    whitelist derived from the matching feature field. *)
Theorem whitelist_never_caller_supplied (f : ActorCriticFields) :
  ((∃ opts w, state_preprocessing_options f = Some opts
              ∧ whitelist_features opts = Some w)
   ∨ (∃ opts w, action_preprocessing_options f = Some opts
                ∧ whitelist_features opts = Some w) →
   ∃ msg, __post_init_post_parse__ f = Raise (AssertionError (Some msg)))
  ∧ (∀ m : ActorCriticBase, __post_init_post_parse__ f = Ok m →
     ∀ (ts : TableSpec) (l : list Event), ∃ calls,
       log (run_feature_identification caps ts {| self := m; log := l |}).2
       = l ++ calls ∧
       ∀ ts' col opts, CallIdentify ts' col opts ∈ calls →
         whitelist_features opts
         = Some (match col with
                 | InputColumn.STATE_FEATURES =>
                     fst <$> default [] (state_float_features f)
                 | InputColumn.ACTION => fst <$> action_float_features f
                 end)).
Proof.
  split.
  - unfold __post_init_post_parse__, whitelist_is_none.
    intros [(opts & w & -> & ->) | (opts & w & -> & ->)]; cbn; [eauto|].
    destruct (state_preprocessing_options f) as [sopts|]; cbn; [|eauto].
    destruct (whitelist_features sopts); cbn; eauto.
  - intros m Hm ts l.
    assert (Hf : fields m = f).
    { unfold __post_init_post_parse__ in Hm.
      repeat case_match; simplify_eq; reflexivity. }
    destruct (run_log_cases ts m l) as (calls & Hlog & Hcalls).
    exists calls; split; [exact Hlog|].
    intros ts' col opts Hin. rewrite <- Hf.
    destruct Hcalls as [-> | ->].
    + apply list_elem_of_singleton in Hin. unfold state_call in Hin.
      by simplify_eq.
    + apply elem_of_cons in Hin as [Hin | Hin%list_elem_of_singleton];
        unfold state_call, action_call in Hin; by simplify_eq.
Qed.

(** ** The cached metric set *)

Ltac mts_monad :=
  unfold metrics_to_score;
  rewrite bind_get_self; cbv beta zeta; cbn [self];
  unfold raise, emit, lift, put_self, mbind, M_bind, mret, M_ret.

Lemma metrics_to_score_unattached (m : ActorCriticBase) (l : list Event) :
  _reward_options m = None →
  metrics_to_score caps {| self := m; log := l |}
  = (Raise (AssertionError None), {| self := m; log := l |}).
Proof. intros Hro. mts_monad. by rewrite Hro. Qed.

Lemma metrics_to_score_first (m : ActorCriticBase) (l : list Event) ro :
  _reward_options m = Some ro →
  _metrics_to_score m = None →
  metrics_to_score caps {| self := m; log := l |}
  = (Ok (get_metrics_to_score caps (metric_reward_values ro)),
     {| self := set_metrics_to_score
                  (get_metrics_to_score caps (metric_reward_values ro)) m;
        log := l ++ [CallGetMetricsToScore (metric_reward_values ro)] |}).
Proof. intros Hro Hc. mts_monad. by rewrite Hro, Hc. Qed.

Lemma metrics_to_score_cached (m : ActorCriticBase) (l : list Event) ro v :
  _reward_options m = Some ro →
  _metrics_to_score m = Some v →
  metrics_to_score caps {| self := m; log := l |}
  = (Ok v, {| self := m; log := l |}).
Proof. intros Hro Hc. mts_monad. by rewrite Hro, Hc. Qed.

Lemma read_metrics_to_score_cached (n : nat) (m : ActorCriticBase)
    (l : list Event) ro v :
  _reward_options m = Some ro →
  _metrics_to_score m = Some v →
  read_metrics_to_score caps n {| self := m; log := l |}
  = (Ok (replicate n v), {| self := m; log := l |}).
Proof.
  intros Hro Hc. induction n as [|n IH]; [reflexivity|].
  cbn [read_metrics_to_score replicate]. unfold mbind, M_bind at 1.
  rewrite (metrics_to_score_cached m l ro v Hro Hc).
  unfold M_bind at 1. by rewrite IH.
Qed.

(** C7: on a freshly constructed manager, reading [metrics_to_score] before
    reward options are attached is an assertion failure that calls no
    resolver; once reward options are attached, any number of reads, one or
    more, all give the value the resolver derives from the reward options'
    [metric_reward_values], the value stays in the cache, and the resolver
    is called exactly once. *)
Theorem metrics_to_score_lazy_cached
    (f : ActorCriticFields) (m : ActorCriticBase) (l : list Event) :
  __post_init_post_parse__ f = Ok m →
  metrics_to_score caps {| self := m; log := l |}
  = (Raise (AssertionError None), {| self := m; log := l |})
  ∧ ∀ (ro : RewardOptions) (n : nat),
      let v := get_metrics_to_score caps (metric_reward_values ro) in
      ∃ w',
        read_metrics_to_score caps (S n)
          {| self := attach_reward_options ro m; log := l |}
        = (Ok (replicate (S n) v), w') ∧
        _metrics_to_score (self w') = Some v ∧
        log w' = l ++ [CallGetMetricsToScore (metric_reward_values ro)] ∧
        resolver_calls (log w') = resolver_calls l ++ [metric_reward_values ro].
Proof.
  intros Hm.
  assert (Hfresh : _reward_options m = None ∧ _metrics_to_score m = None).
  { unfold __post_init_post_parse__ in Hm.
    repeat case_match; simplify_eq; by split. }
  destruct Hfresh as [Hro Hc]. split.
  - by apply metrics_to_score_unattached.
  - intros ro n v. eexists. split_and!.
    + cbn [read_metrics_to_score]. unfold mbind, M_bind at 1.
      rewrite (metrics_to_score_first (attach_reward_options ro m) l ro)
        by (reflexivity || exact Hc).
      unfold M_bind at 1.
      rewrite (read_metrics_to_score_cached n _ _ ro v) by reflexivity.
      reflexivity.
    + reflexivity.
    + reflexivity.
    + cbn [log]. unfold resolver_calls. by rewrite omap_app.
Qed.

(** ** Training *)

Ltac train_monad :=
  unfold train, build_batch_preprocessor, metrics_to_score,
    raise, emit, lift, get_self, put_self, mbind, M_bind, mret, M_ret;
  cbn.

(** C9: on a manager whose trainer accepts the reporter, whose reward
    options are attached and whose inherited properties (trainer, discount
    factor, normalization data, device flag) all yield a value, [train]
    calls the train-and-evaluate driver exactly once, with the
    [eval_dataset] it was given passed on as it is; this holds for an absent
    eval dataset ([None]) as for a present one. *)
Theorem train_passes_eval_dataset_through
    (m : ActorCriticBase) (l : list Event)
    (train_dataset : Dataset) (eval_dataset : option Dataset)
    (num_epochs : Z) (reader_options_arg : ReaderOptions)
    (t : Trainer) (g : Float) (gpu : bool) (ro : RewardOptions)
    (sd ad : NormalizationData) :
  trainer m = Ok t →
  trainer_add_observer caps t ActorCriticReporter_new = Ok tt →
  rl_parameters_gamma m = Ok g →
  _reward_options m = Some ro →
  state_normalization_data m = Ok sd →
  action_normalization_data m = Ok ad →
  use_gpu m = Ok gpu →
  ∃ args,
    driver_calls
      (log (train caps train_dataset eval_dataset num_epochs reader_options_arg
              {| self := m; log := l |}).2)
    = driver_calls l ++ [args] ∧
    drv_eval_dataset args = eval_dataset ∧
    drv_train_dataset args = train_dataset ∧
    drv_num_epochs args = num_epochs.
Proof.
  intros Ht Hobs Hg Hro Hsd Had Hgpu.
  train_monad.
  repeat (progress (rewrite ?Ht, ?Hobs, ?Hg, ?Hro; cbn)).
  destruct (_metrics_to_score m) as [v|]; cbn;
    repeat (progress (rewrite ?Ht, ?Hsd, ?Had, ?Hgpu; cbn));
    (match goal with
     | |- context [train_and_evaluate_generic caps ?a] =>
         exists a; destruct (train_and_evaluate_generic caps a)
     end);
    cbn; unfold driver_calls; rewrite !omap_app; cbn; rewrite ?app_nil_r;
    by split_and!.
Qed.

(** C10: [train] does not depend on its [reader_options] argument: two calls
    that differ only in it behave identically (same result, same calls, same
    manager afterwards), and every driver call that [train] makes carries
    the [reader_options] field stored on the manager. *)
Theorem train_ignores_reader_options_argument
    (w : World) (train_dataset : Dataset) (eval_dataset : option Dataset)
    (num_epochs : Z) (r1 r2 : ReaderOptions) :
  train caps train_dataset eval_dataset num_epochs r1 w
  = train caps train_dataset eval_dataset num_epochs r2 w
  ∧ ∃ calls,
      log (train caps train_dataset eval_dataset num_epochs r1 w).2
      = log w ++ calls ∧
      ∀ args, args ∈ driver_calls calls →
        drv_reader_options args = reader_options (self w).
Proof.
  split; [reflexivity|].
  destruct w as [m l]. train_monad.
  repeat first
    [ progress cbn
    | match goal with
      | |- context [match ?o with Ok _ => _ | Raise _ => _ end] =>
          destruct o eqn:?
      | |- context [match ?o with Some _ => _ | None => _ end] =>
          destruct o eqn:?
      end ];
    first [ exists []; split; [by rewrite app_nil_r|]
          | rewrite <- ?(assoc_L (++)); eexists; split; [reflexivity|] ];
    cbn; intros args Hin;
    repeat (apply elem_of_cons in Hin as [-> | Hin]; [reflexivity|]);
    by apply elem_of_nil in Hin.
Qed.

(** ** More on [run_feature_identification] *)

Lemma run_world_cases (ts : TableSpec) (m : ActorCriticBase) (l : list Event) :
  ∃ calls,
    (run_feature_identification caps ts {| self := m; log := l |}).2
    = {| self := m; log := l ++ calls |} ∧
    (calls = [state_call ts m] ∨ calls = [state_call ts m; action_call ts m]).
Proof.
  destruct (identify_normalization_parameters caps ts InputColumn.STATE_FEATURES
              (state_identification_options m)) as [sp|e] eqn:Hs.
  - destruct (decide (action_float_features m = [])) as [Ha|Ha].
    + rewrite (run_empty_action_features ts m l sp Hs Ha). eauto.
    + destruct (feature_overrides (or_default (_action_preprocessing_options m)))
        as [fo|] eqn:Hfo.
      * rewrite (run_preset_feature_overrides ts m l sp fo Hs Ha Hfo). eauto.
      * rewrite (run_reaches_action_identification ts m l sp Hs Ha Hfo). eauto.
  - rewrite (run_state_identification_raises ts m l e Hs). eauto.
Qed.

(** X1: [run_feature_identification] returns a mapping exactly when the
    action feature list is non-empty, no feature overrides are pre-set on the
    action options and both identification calls return; the mapping is then
    the two-entry one built from the two results, and both calls are in the
    log. *)
Theorem run_feature_identification_returns_iff
    (ts : TableSpec) (m : ActorCriticBase) (l : list Event)
    (d : gmap NormalizationKey.t NormalizationData) (w' : World) :
  run_feature_identification caps ts {| self := m; log := l |} = (Ok d, w')
  ↔ action_float_features m ≠ []
    ∧ feature_overrides (or_default (_action_preprocessing_options m)) = None
    ∧ ∃ sp ap,
        identify_normalization_parameters caps ts InputColumn.STATE_FEATURES
          (state_identification_options m) = Ok sp
        ∧ identify_normalization_parameters caps ts InputColumn.ACTION
            (action_identification_options m) = Ok ap
        ∧ d = <[NormalizationKey.ACTION := {| dense_normalization_parameters := ap |}]>
              (<[NormalizationKey.STATE := {| dense_normalization_parameters := sp |}]> ∅)
        ∧ w' = {| self := m; log := l ++ [state_call ts m; action_call ts m] |}.
Proof.
  split.
  - intros Hrun.
    destruct (identify_normalization_parameters caps ts InputColumn.STATE_FEATURES
                (state_identification_options m)) as [sp|e] eqn:Hs.
    2: { by rewrite (run_state_identification_raises ts m l e Hs) in Hrun. }
    destruct (decide (action_float_features m = [])) as [Ha|Ha].
    { by rewrite (run_empty_action_features ts m l sp Hs Ha) in Hrun. }
    destruct (feature_overrides (or_default (_action_preprocessing_options m)))
      as [fo|] eqn:Hfo.
    { by rewrite (run_preset_feature_overrides ts m l sp fo Hs Ha Hfo) in Hrun. }
    rewrite (run_reaches_action_identification ts m l sp Hs Ha Hfo) in Hrun.
    destruct (identify_normalization_parameters caps ts InputColumn.ACTION
                (action_identification_options m)) as [ap|e] eqn:Hact; [|done].
    injection Hrun as <- <-. split_and!; [done..|]. by exists sp, ap.
  - intros (Ha & Hfo & sp & ap & Hs & Hact & -> & ->).
    by rewrite (run_reaches_action_identification ts m l sp Hs Ha Hfo), Hact.
Qed.

(** X2: whatever the configuration and whatever the collaborators do,
    [run_feature_identification] leaves the manager object as it found it and
    adds to the log either the state identification call alone or the state
    call followed by the action call, both for the table it was given; it
    calls neither the metric resolver nor the training driver. *)
Theorem run_feature_identification_frame
    (ts : TableSpec) (m : ActorCriticBase) (l : list Event) :
  ∃ calls,
    (run_feature_identification caps ts {| self := m; log := l |}).2
    = {| self := m; log := l ++ calls |} ∧
    (identify_calls calls
     = [(ts, InputColumn.STATE_FEATURES, state_identification_options m)]
     ∨ identify_calls calls
       = [(ts, InputColumn.STATE_FEATURES, state_identification_options m);
          (ts, InputColumn.ACTION, action_identification_options m)]) ∧
    length (identify_calls calls) = length calls ∧
    resolver_calls calls = [] ∧
    driver_calls calls = [].
Proof.
  destruct (run_world_cases ts m l) as (calls & Hw & [-> | ->]);
    eexists; (split; [exact Hw|]); cbn; split_and!; auto.
Qed.

(** X3: an exception raised by the identification capability, on the state
    call or on the action call, comes out of [run_feature_identification]
    unchanged, and the manager object is left as it was. *)
Theorem identification_failure_propagates
    (ts : TableSpec) (m : ActorCriticBase) (l : list Event) (e : exn) :
  identify_normalization_parameters caps ts InputColumn.STATE_FEATURES
    (state_identification_options m) = Raise e
  ∨ (is_Ok (identify_normalization_parameters caps ts InputColumn.STATE_FEATURES
              (state_identification_options m)) = true
     ∧ action_float_features m ≠ []
     ∧ feature_overrides (or_default (_action_preprocessing_options m)) = None
     ∧ identify_normalization_parameters caps ts InputColumn.ACTION
         (action_identification_options m) = Raise e) →
  (run_feature_identification caps ts {| self := m; log := l |}).1 = Raise e
  ∧ self (run_feature_identification caps ts {| self := m; log := l |}).2 = m.
Proof.
  intros [Hs | (Hok & Ha & Hfo & Hact)].
  - by rewrite (run_state_identification_raises ts m l e Hs).
  - destruct (identify_normalization_parameters caps ts InputColumn.STATE_FEATURES
                (state_identification_options m)) as [sp|e'] eqn:Hs; [|done].
    by rewrite (run_reaches_action_identification ts m l sp Hs Ha Hfo), Hact.
Qed.

(** X4: feature overrides set on the state preprocessing options are not
    rejected and not rewritten: on a constructed manager the state
    identification call, the first call logged, carries exactly the
    [feature_overrides] of the caller's state options (none when no options
    were given). *)
Theorem state_feature_overrides_pass_through
    (f : ActorCriticFields) (m : ActorCriticBase)
    (ts : TableSpec) (l : list Event) :
  __post_init_post_parse__ f = Ok m →
  ∃ sopts rest,
    log (run_feature_identification caps ts {| self := m; log := l |}).2
    = l ++ CallIdentify ts InputColumn.STATE_FEATURES sopts :: rest ∧
    feature_overrides sopts = state_preprocessing_options f ≫= feature_overrides ∧
    whitelist_features sopts = Some (fst <$> default [] (state_float_features f)).
Proof.
  intros Hm.
  assert (Hf : fields m = f ∧ _state_preprocessing_options m = state_preprocessing_options f).
  { unfold __post_init_post_parse__ in Hm.
    repeat case_match; simplify_eq; by split. }
  destruct Hf as [Hf Hpriv].
  destruct (run_world_cases ts m l) as (calls & Hw & Hcalls).
  rewrite Hw. cbn [log].
  exists (state_identification_options m).
  destruct Hcalls as [-> | ->]; eexists; (split; [reflexivity|]);
    unfold state_identification_options, state_feature_ids; cbn;
    rewrite Hpriv, Hf; by destruct (state_preprocessing_options f).
Qed.

Lemma size_list_to_set_le (ids : list Z) :
  (size (list_to_set ids : gset Z) ≤ length ids)%nat.
Proof.
  induction ids as [|i ids IH]; cbn; [by rewrite size_empty|].
  rewrite size_union_alt, size_singleton. cbn. apply le_n_S.
  etrans; [|exact IH]. apply subseteq_size.
  intros x [Hx _]%elem_of_difference. exact Hx.
Qed.

(** X5: when the action identification call is reached, its whitelist is the
    list of action feature ids as configured, in order and with repetitions,
    while its [feature_overrides] map has one entry per distinct id, so never
    more entries than the whitelist has elements. *)
Theorem action_overrides_one_entry_per_distinct_id
    (ts : TableSpec) (m : ActorCriticBase) (l : list Event)
    (sp : gmap Z NormalizationParameters) :
  identify_normalization_parameters caps ts InputColumn.STATE_FEATURES
    (state_identification_options m) = Ok sp →
  action_float_features m ≠ [] →
  feature_overrides (or_default (_action_preprocessing_options m)) = None →
  ∃ opts fo,
    identify_calls
      (log (run_feature_identification caps ts {| self := m; log := l |}).2)
    = identify_calls l
      ++ [(ts, InputColumn.STATE_FEATURES, state_identification_options m);
          (ts, InputColumn.ACTION, opts)] ∧
    whitelist_features opts = Some (fst <$> action_float_features m) ∧
    feature_overrides opts = Some fo ∧
    size fo = size (list_to_set (fst <$> action_float_features m) : gset Z) ∧
    (size fo ≤ length (action_float_features m))%nat.
Proof.
  intros Hs Ha Hfo.
  rewrite (run_reaches_action_identification ts m l sp Hs Ha Hfo). cbn [snd log].
  exists (action_identification_options m). eexists. split_and!.
  - unfold identify_calls. by rewrite omap_app.
  - reflexivity.
  - reflexivity.
  - by rewrite <- size_dom, broadcast_override_dom.
  - rewrite <- size_dom, broadcast_override_dom.
    rewrite <- (length_fmap fst (action_float_features m)).
    apply size_list_to_set_le.
Qed.

Lemma preset_feature_overrides_rejected_aux
    (ts : TableSpec) (m : ActorCriticBase) (l : list Event) (fo : gmap Z string) :
  feature_overrides (or_default (_action_preprocessing_options m)) = Some fo →
  ∃ e, (run_feature_identification caps ts {| self := m; log := l |}).1 = Raise e.
Proof.
  intros Hfo.
  destruct (identify_normalization_parameters caps ts InputColumn.STATE_FEATURES
              (state_identification_options m)) as [sp|e] eqn:Hs.
  - destruct (decide (action_float_features m = [])) as [Ha|Ha].
    + rewrite (run_empty_action_features ts m l sp Hs Ha). eauto.
    + rewrite (run_preset_feature_overrides ts m l sp fo Hs Ha Hfo). eauto.
  - rewrite (run_state_identification_raises ts m l e Hs). eauto.
Qed.

(** X6: construction checks whitelists only.  Fields whose action options
    carry [feature_overrides] (and no whitelist anywhere) construct without
    error, and on the manager so obtained every call of
    [run_feature_identification] raises, whatever the collaborators. *)
Theorem preset_overrides_constructed_then_rejected
    (f : ActorCriticFields) (opts : PreprocessingOptions) (fo : gmap Z string) :
  whitelist_is_none (state_preprocessing_options f) = true →
  action_preprocessing_options f = Some opts →
  whitelist_features opts = None →
  feature_overrides opts = Some fo →
  ∃ m,
    __post_init_post_parse__ f = Ok m ∧
    ∀ (ts : TableSpec) (l : list Event),
      is_Ok (run_feature_identification caps ts {| self := m; log := l |}).1 = false.
Proof.
  intros Hsw Hao Hw Hfo.
  set (m := {| fields := f;
               _reward_options := None;
               _state_preprocessing_options := state_preprocessing_options f;
               _action_preprocessing_options := action_preprocessing_options f;
               _metrics_to_score := None;
               _actor_network := None;
               _q1_network := None |}).
  exists m. split.
  - assert (Haw : whitelist_is_none (action_preprocessing_options f) = true)
      by (unfold whitelist_is_none; by rewrite Hao, Hw).
    unfold __post_init_post_parse__. by rewrite Hsw, Haw.
  - intros ts l.
    assert (Hpre : feature_overrides (or_default (_action_preprocessing_options m)) = Some fo)
      by (cbn; by rewrite Hao).
    destruct (preset_feature_overrides_rejected_aux ts m l fo Hpre) as (e & ->).
    reflexivity.
Qed.

(** ** More on the cached metric set *)

(** X7: The cache is never invalidated: on a constructed manager, after one read
    under reward options [ro1], attaching other reward options [ro2] and
    reading again still gives the value derived from [ro1], and the resolver
    is not called a second time. *)
Theorem metrics_to_score_cache_survives_new_reward_options
    (f : ActorCriticFields) (m : ActorCriticBase) (l : list Event)
    (ro1 ro2 : RewardOptions) :
  __post_init_post_parse__ f = Ok m →
  let w1 := (metrics_to_score caps
               {| self := attach_reward_options ro1 m; log := l |}).2 in
  metrics_to_score caps
    {| self := attach_reward_options ro2 (self w1); log := log w1 |}
  = (Ok (get_metrics_to_score caps (metric_reward_values ro1)),
     {| self := attach_reward_options ro2 (self w1);
        log := l ++ [CallGetMetricsToScore (metric_reward_values ro1)] |}).
Proof.
  intros Hm w1.
  assert (Hc : _metrics_to_score m = None).
  { unfold __post_init_post_parse__ in Hm. repeat case_match; by simplify_eq. }
  subst w1.
  rewrite (metrics_to_score_first (attach_reward_options ro1 m) l ro1)
    by (reflexivity || exact Hc).
  cbn [snd self log].
  by rewrite (metrics_to_score_cached _ _ ro2
                (get_metrics_to_score caps (metric_reward_values ro1))).
Qed.

(** X8: The reward-options assertion comes before the cache: with a value in the
    cache but no reward options on the manager, a read still fails with the
    bare assertion failure, calls nothing and keeps the cached value. *)
Theorem metrics_to_score_asserts_before_cache
    (m : ActorCriticBase) (l : list Event) (v : list string) :
  _metrics_to_score m = Some v →
  _reward_options m = None →
  metrics_to_score caps {| self := m; log := l |}
  = (Raise (AssertionError None), {| self := m; log := l |})
  ∧ _metrics_to_score
      (self (metrics_to_score caps {| self := m; log := l |}).2) = Some v.
Proof.
  intros Hc Hro. rewrite (metrics_to_score_unattached m l Hro). by split.
Qed.

(** ** More on [build_batch_preprocessor] and [train] *)


Lemma train_world
    (m : ActorCriticBase) (l : list Event)
    (train_dataset : Dataset) (eval_dataset : option Dataset)
    (num_epochs : Z) (reader_options_arg : ReaderOptions)
    (t : Trainer) (g : Float) (gpu : bool) (ro : RewardOptions)
    (sd ad : NormalizationData) :
  trainer m = Ok t →
  trainer_add_observer caps t ActorCriticReporter_new = Ok tt →
  rl_parameters_gamma m = Ok g →
  _reward_options m = Some ro →
  state_normalization_data m = Ok sd →
  action_normalization_data m = Ok ad →
  use_gpu m = Ok gpu →
  let v := default (get_metrics_to_score caps (metric_reward_values ro))
                   (_metrics_to_score m) in
  let ev := {| action_names := None; gamma := g; model := t;
               ev_metrics_to_score := v |} in
  let args :=
    {| drv_train_dataset := train_dataset;
       drv_eval_dataset := eval_dataset;
       drv_trainer := t;
       drv_num_epochs := num_epochs;
       drv_use_gpu := gpu;
       drv_batch_preprocessor :=
         {| state_preprocessor :=
              {| normalization_parameters := dense_normalization_parameters sd;
                 pp_use_gpu := gpu |};
            action_preprocessor :=
              {| normalization_parameters := dense_normalization_parameters ad;
                 pp_use_gpu := gpu |};
            bp_use_gpu := gpu |};
       drv_reporter := ActorCriticReporter_new;
       drv_evaluator := ev;
       drv_reader_options := reader_options m |} in
  train caps train_dataset eval_dataset num_epochs reader_options_arg
    {| self := m; log := l |}
  = (match train_and_evaluate_generic caps args with
     | Ok _ => Ok {| training_report :=
                       make_union_instance (generate_training_report caps args) |}
     | Raise e => Raise e
     end,
     {| self := match _metrics_to_score m with
                | Some _ => m
                | None => set_metrics_to_score v m
                end;
        log := l ++ [CallTrainerAddObserver t ActorCriticReporter_new]
                 ++ match _metrics_to_score m with
                    | Some _ => []
                    | None => [CallGetMetricsToScore (metric_reward_values ro)]
                    end
                 ++ [CallEvaluatorAddObserver ev ActorCriticReporter_new;
                     CallDriver args]
                 ++ match train_and_evaluate_generic caps args with
                    | Ok _ => [CallGenerateReport ActorCriticReporter_new]
                    | Raise _ => []
                    end |}).
Proof.
  intros Ht Hobs Hg Hro Hsd Had Hgpu v ev args. subst v ev args.
  train_monad.
  repeat (progress (rewrite ?Ht, ?Hobs, ?Hg, ?Hro; cbn)).
  destruct (_metrics_to_score m) as [v|]; cbn;
    repeat (progress (rewrite ?Ht, ?Hsd, ?Had, ?Hgpu; cbn));
    (match goal with
     | |- context [train_and_evaluate_generic caps ?a] =>
         destruct (train_and_evaluate_generic caps a) as [[]|e]
     end);
    cbn; rewrite <- ?(assoc_L (++)); reflexivity.
Qed.

(** X10: When the steps before the driver succeed, the one driver call is wired
    as follows: it gets the manager's trainer, the very evaluator that the
    reporter was registered on (no action names, the manager's discount
    factor, the trainer as model, the scored metrics read from the cache or
    else from the resolver), and a batch preprocessor built from the
    manager's state and action normalization data with the manager's device
    flag throughout. *)
Theorem train_wires_driver
    (m : ActorCriticBase) (l : list Event)
    (train_dataset : Dataset) (eval_dataset : option Dataset)
    (num_epochs : Z) (reader_options_arg : ReaderOptions)
    (t : Trainer) (g : Float) (gpu : bool) (ro : RewardOptions)
    (sd ad : NormalizationData) :
  trainer m = Ok t →
  trainer_add_observer caps t ActorCriticReporter_new = Ok tt →
  rl_parameters_gamma m = Ok g →
  _reward_options m = Some ro →
  state_normalization_data m = Ok sd →
  action_normalization_data m = Ok ad →
  use_gpu m = Ok gpu →
  ∃ args pre post,
    log (train caps train_dataset eval_dataset num_epochs reader_options_arg
           {| self := m; log := l |}).2
    = l ++ pre ++ [CallEvaluatorAddObserver (drv_evaluator args) (drv_reporter args);
                   CallDriver args] ++ post ∧
    driver_calls pre = [] ∧ driver_calls post = [] ∧
    drv_trainer args = t ∧
    drv_use_gpu args = gpu ∧
    action_names (drv_evaluator args) = None ∧
    gamma (drv_evaluator args) = g ∧
    model (drv_evaluator args) = t ∧
    ev_metrics_to_score (drv_evaluator args)
    = default (get_metrics_to_score caps (metric_reward_values ro))
              (_metrics_to_score m) ∧
    drv_batch_preprocessor args
    = {| state_preprocessor :=
           {| normalization_parameters := dense_normalization_parameters sd;
              pp_use_gpu := gpu |};
         action_preprocessor :=
           {| normalization_parameters := dense_normalization_parameters ad;
              pp_use_gpu := gpu |};
         bp_use_gpu := gpu |}.
Proof.
  intros Ht Hobs Hg Hro Hsd Had Hgpu.
  rewrite (train_world m l train_dataset eval_dataset num_epochs reader_options_arg
             t g gpu ro sd ad Ht Hobs Hg Hro Hsd Had Hgpu).
  cbn [snd log].
  match goal with |- context [CallDriver ?a] => exists a end.
  eexists
    ([CallTrainerAddObserver t ActorCriticReporter_new]
       ++ match _metrics_to_score m with
          | Some _ => []
          | None => [CallGetMetricsToScore (metric_reward_values ro)]
          end), _.
  split; [rewrite <- (assoc_L (++) [_]); reflexivity|].
  split_and!; try reflexivity.
  - by destruct (_metrics_to_score m).
  - by destruct (train_and_evaluate_generic caps _).
Qed.

(** X11: An exception raised by the driver comes out of [train] unchanged: the
    driver call is the last call made, no training report is asked of the
    reporter, and the scored metrics stay in the manager's cache. *)
Theorem train_driver_failure_propagates
    (m : ActorCriticBase) (l : list Event)
    (train_dataset : Dataset) (eval_dataset : option Dataset)
    (num_epochs : Z) (reader_options_arg : ReaderOptions)
    (t : Trainer) (g : Float) (gpu : bool) (ro : RewardOptions)
    (sd ad : NormalizationData) (e : exn) :
  trainer m = Ok t →
  trainer_add_observer caps t ActorCriticReporter_new = Ok tt →
  rl_parameters_gamma m = Ok g →
  _reward_options m = Some ro →
  state_normalization_data m = Ok sd →
  action_normalization_data m = Ok ad →
  use_gpu m = Ok gpu →
  (∀ args, drv_train_dataset args = train_dataset →
           train_and_evaluate_generic caps args = Raise e) →
  ∃ calls args,
    train caps train_dataset eval_dataset num_epochs reader_options_arg
      {| self := m; log := l |}
    = (Raise e,
       {| self := match _metrics_to_score m with
                  | Some _ => m
                  | None => set_metrics_to_score
                              (get_metrics_to_score caps (metric_reward_values ro)) m
                  end;
          log := l ++ calls |}) ∧
    last calls = Some (CallDriver args) ∧
    CallGenerateReport ActorCriticReporter_new ∉ calls.
Proof.
  intros Ht Hobs Hg Hro Hsd Had Hgpu Hdrv.
  rewrite (train_world m l train_dataset eval_dataset num_epochs reader_options_arg
             t g gpu ro sd ad Ht Hobs Hg Hro Hsd Had Hgpu).
  rewrite Hdrv by reflexivity.
  destruct (_metrics_to_score m) as [v|]; cbn;
    (eexists _, _; split_and!; [reflexivity | reflexivity |]);
    intros Hin; repeat (apply elem_of_cons in Hin as [Hin | Hin]; [done|]);
    by apply elem_of_nil in Hin.
Qed.

(** X12: Without reward options [train] fails with the bare assertion failure of
    [metrics_to_score], but only after the reporter has been registered on
    the trainer; nothing else has been called: no resolver, no evaluator
    registration, no driver. *)
Theorem train_without_reward_options
    (m : ActorCriticBase) (l : list Event)
    (train_dataset : Dataset) (eval_dataset : option Dataset)
    (num_epochs : Z) (reader_options_arg : ReaderOptions)
    (t : Trainer) (g : Float) :
  trainer m = Ok t →
  trainer_add_observer caps t ActorCriticReporter_new = Ok tt →
  rl_parameters_gamma m = Ok g →
  _reward_options m = None →
  train caps train_dataset eval_dataset num_epochs reader_options_arg
    {| self := m; log := l |}
  = (Raise (AssertionError None),
     {| self := m;
        log := l ++ [CallTrainerAddObserver t ActorCriticReporter_new] |}).
Proof.
  intros Ht Hobs Hg Hro. train_monad.
  repeat (progress (rewrite ?Ht, ?Hobs, ?Hg, ?Hro; cbn)). reflexivity.
Qed.

(** X13: A trainer that rejects the observer registration stops [train] at once:
    the exception comes out unchanged and the registration attempt is the
    only call made. *)
Theorem train_observer_registration_failure
    (m : ActorCriticBase) (l : list Event)
    (train_dataset : Dataset) (eval_dataset : option Dataset)
    (num_epochs : Z) (reader_options_arg : ReaderOptions)
    (t : Trainer) (e : exn) :
  trainer m = Ok t →
  trainer_add_observer caps t ActorCriticReporter_new = Raise e →
  train caps train_dataset eval_dataset num_epochs reader_options_arg
    {| self := m; log := l |}
  = (Raise e,
     {| self := m;
        log := l ++ [CallTrainerAddObserver t ActorCriticReporter_new] |}).
Proof.
  intros Ht Hobs. train_monad.
  repeat (progress (rewrite ?Ht, ?Hobs; cbn)). reflexivity.
Qed.

Ltac train_cases :=
  train_monad;
  repeat first
    [ progress cbn
    | match goal with
      | Heq : ?o = _ |- context [match ?o with Ok _ => _ | Raise _ => _ end] =>
          rewrite Heq
      | |- context [match ?o with Ok _ => _ | Raise _ => _ end] =>
          destruct o eqn:?
      | |- context [match ?o with Some _ => _ | None => _ end] =>
          destruct o eqn:?
      end ].

(** X14: In every run of [train], whatever fails, a driver call is preceded by
    the registration of the reporter on the trainer and then on the
    evaluator: the same reporter, trainer and evaluator that the driver call
    receives. *)
Theorem train_registers_reporter_before_driver
    (w : World) (train_dataset : Dataset) (eval_dataset : option Dataset)
    (num_epochs : Z) (reader_options_arg : ReaderOptions) :
  ∃ calls,
    log (train caps train_dataset eval_dataset num_epochs reader_options_arg w).2
    = log w ++ calls ∧
    ∀ (i : nat) args, calls !! i = Some (CallDriver args) →
      ∃ j k : nat,
        (j < k < i)%nat ∧
        calls !! j = Some (CallTrainerAddObserver (drv_trainer args) (drv_reporter args)) ∧
        calls !! k = Some (CallEvaluatorAddObserver (drv_evaluator args) (drv_reporter args)).
Proof.
  destruct w as [m l]. train_cases;
    (first [ exists []; split; [by rewrite app_nil_r|]
           | rewrite <- ?(assoc_L (++)); eexists; split; [reflexivity|] ]);
    intros i args Hi;
    do 6 (try destruct i as [|i]); cbn in Hi; simplify_eq;
    first [ exists 0%nat, 1%nat; split_and!; [lia | lia | reflexivity | reflexivity]
          | exists 0%nat, 2%nat; split_and!; [lia | lia | reflexivity | reflexivity] ].
Qed.

(** X15: [train] touches nothing of the manager but the metric cache, which it
    never clears or overwrites, and it makes no identification call. *)
Theorem train_frame
    (w : World) (train_dataset : Dataset) (eval_dataset : option Dataset)
    (num_epochs : Z) (reader_options_arg : ReaderOptions) :
  let w' := (train caps train_dataset eval_dataset num_epochs reader_options_arg w).2 in
  fields (self w') = fields (self w) ∧
  _reward_options (self w') = _reward_options (self w) ∧
  _state_preprocessing_options (self w') = _state_preprocessing_options (self w) ∧
  _action_preprocessing_options (self w') = _action_preprocessing_options (self w) ∧
  _actor_network (self w') = _actor_network (self w) ∧
  _q1_network (self w') = _q1_network (self w) ∧
  (∀ v, _metrics_to_score (self w) = Some v → _metrics_to_score (self w') = Some v) ∧
  identify_calls (log w') = identify_calls (log w).
Proof.
  destruct w as [m l]. train_cases;
    (split_and!; try done; try congruence);
    unfold identify_calls; rewrite ?omap_app; cbn; by rewrite ?app_nil_r.
Qed.

(** X16: Two runs of [train] on a manager with reward options attached and
    an empty metric cache call the metric resolver once: the first run fills the cache,
    the second reads it, and both evaluators get the same scored metrics. *)
Theorem train_twice_resolves_once
    (m : ActorCriticBase) (l : list Event)
    (td1 td2 : Dataset) (ed1 ed2 : option Dataset) (n1 n2 : Z)
    (r1 r2 : ReaderOptions)
    (t : Trainer) (g : Float) (gpu : bool) (ro : RewardOptions)
    (sd ad : NormalizationData) :
  trainer m = Ok t →
  trainer_add_observer caps t ActorCriticReporter_new = Ok tt →
  rl_parameters_gamma m = Ok g →
  _reward_options m = Some ro →
  state_normalization_data m = Ok sd →
  action_normalization_data m = Ok ad →
  use_gpu m = Ok gpu →
  _metrics_to_score m = None →
  let w1 := (train caps td1 ed1 n1 r1 {| self := m; log := l |}).2 in
  let w2 := (train caps td2 ed2 n2 r2 w1).2 in
  _metrics_to_score (self w1)
  = Some (get_metrics_to_score caps (metric_reward_values ro)) ∧
  resolver_calls (log w2) = resolver_calls l ++ [metric_reward_values ro] ∧
  (ev_metrics_to_score ∘ drv_evaluator) <$> driver_calls (log w2)
  = ((ev_metrics_to_score ∘ drv_evaluator) <$> driver_calls l)
    ++ [get_metrics_to_score caps (metric_reward_values ro);
        get_metrics_to_score caps (metric_reward_values ro)].
Proof.
  intros Ht Hobs Hg Hro Hsd Had Hgpu Hc w1 w2. subst w2 w1.
  rewrite (train_world m l td1 ed1 n1 r1 t g gpu ro sd ad Ht Hobs Hg Hro Hsd Had Hgpu).
  rewrite Hc. cbn [snd self log default].
  set (v := get_metrics_to_score caps (metric_reward_values ro)).
  rewrite (train_world (set_metrics_to_score v m) _ td2 ed2 n2 r2 t g gpu ro sd ad
             Ht Hobs Hg Hro Hsd Had Hgpu).
  cbn [snd self log default _metrics_to_score set_metrics_to_score].
  split_and!; [reflexivity | |].
  - unfold resolver_calls. rewrite !omap_app. cbn.
    repeat match goal with
           | |- context [match ?o with Ok _ => _ | Raise _ => _ end] => destruct o
           end; cbn; by rewrite ?app_nil_r.
  - unfold driver_calls. rewrite !omap_app. cbn.
    repeat match goal with
           | |- context [match ?o with Ok _ => _ | Raise _ => _ end] => destruct o
           end; cbn; rewrite ?app_nil_r, ?fmap_app; cbn;
      by rewrite <- ?(assoc_L (++)).
Qed.

End ManagerFacts.

(** ** The policy wrapper *)

Section PolicyFacts.
Context {Params FeatureData Tensor : Type}.
Variable forward :
  TorchModule.t Params → FeatureData → outcome Tensor * TorchModule.t Params.
Variables detach cpu : Tensor → Tensor.

(** C3, as the code has it: when the forward pass returns, [act] has run it
    on the network switched to evaluation mode and leaves the network in
    training mode, whatever the mode before the call; so the mode flag after
    the call equals the flag before it exactly when the network started in
    training mode. *)
Theorem act_leaves_training_mode
    (net net' : TorchModule.t Params) (obs : FeatureData) (out : Tensor) :
  forward (TorchModule.eval net) obs = (Ok out, net') →
  ActorPolicyWrapper.act forward detach cpu net obs
  = (Ok (cpu (detach out)), TorchModule.train net')
  ∧ TorchModule.training (TorchModule.eval net) = false
  ∧ TorchModule.training (ActorPolicyWrapper.act forward detach cpu net obs).2 = true
  ∧ (TorchModule.training (ActorPolicyWrapper.act forward detach cpu net obs).2
     = TorchModule.training net
     ↔ TorchModule.training net = true).
Proof.
  intros Hfwd. unfold ActorPolicyWrapper.act. rewrite Hfwd. cbn.
  split_and!; try reflexivity. split; congruence.
Qed.

(** X17: When the forward pass raises, [act] lets the exception through without
    calling [train()]: the network is left as the forward pass left it, so,
    unless the forward pass itself switched the mode back, it stays in
    evaluation mode even if it was in training mode before the call. *)
Theorem act_forward_failure_leaves_eval_mode
    (net net' : TorchModule.t Params) (obs : FeatureData) (e : exn) :
  forward (TorchModule.eval net) obs = (Raise e, net') →
  TorchModule.training net' = TorchModule.training (TorchModule.eval net) →
  ActorPolicyWrapper.act forward detach cpu net obs = (Raise e, net')
  ∧ TorchModule.training (ActorPolicyWrapper.act forward detach cpu net obs).2 = false.
Proof.
  intros Hfwd Hmode. unfold ActorPolicyWrapper.act. rewrite Hfwd. cbn.
  split; [reflexivity | exact Hmode].
Qed.

(** X18: What [act] returns and how it leaves the network do not depend on the
    mode the network was in: two networks that differ at most in their mode
    flag give the same output and end in the same state. *)
Theorem act_independent_of_starting_mode
    (net1 net2 : TorchModule.t Params) (obs : FeatureData) :
  TorchModule.parameters net1 = TorchModule.parameters net2 →
  ActorPolicyWrapper.act forward detach cpu net1 obs
  = ActorPolicyWrapper.act forward detach cpu net2 obs.
Proof.
  intros Hp. unfold ActorPolicyWrapper.act, TorchModule.eval. by rewrite Hp.
Qed.


End PolicyFacts.

(** * The model at work *)

Section Runs.
Import Demo.

(** The end-to-end test of the spec: three state features, two action
    features, a stub identification. *)
Example run_three_state_two_action :
  (run_feature_identification caps "tbl" {| self := manager; log := [] |}).1
  = Ok (<[NormalizationKey.ACTION :=
            {| dense_normalization_parameters :=
                 {[ 10 := "params"; 11 := "params" ]} |}]>
        (<[NormalizationKey.STATE :=
            {| dense_normalization_parameters :=
                 {[ 1 := "params"; 2 := "params"; 3 := "params" ]} |}]> ∅)).
Proof. vm_compute. reflexivity. Qed.

Example construction_accepts_base_fields :
  __post_init_post_parse__ base_fields = Ok manager.
Proof. reflexivity. Qed.

Lemma run_feature_identification_keys_witness :
  ∃ d w',
    run_feature_identification caps "tbl" {| self := manager; log := [] |} = (Ok d, w') ∧
    dom d = {[NormalizationKey.STATE; NormalizationKey.ACTION]} ∧
    dom d = list_to_set (required_normalization_keys manager) ∧
    (map_to_list d).*1 ≡ₚ required_normalization_keys manager ∧
    d !! NormalizationKey.STATE
    = Some {| dense_normalization_parameters :=
                {[ 1 := "params"; 2 := "params"; 3 := "params" ]} |} ∧
    d !! NormalizationKey.ACTION
    = Some {| dense_normalization_parameters :=
                {[ 10 := "params"; 11 := "params" ]} |}.
Proof.
  apply (run_feature_identification_keys caps "tbl" manager []);
    [discriminate | reflexivity | vm_compute; reflexivity | vm_compute; reflexivity].
Defined.

(** The two precedence cases of the spec: explicit "O1" over default "O2",
    and the default "O2" when nothing is set on the manager. *)
Example explicit_override_wins :
  identify_calls
    (log (run_feature_identification caps "tbl" {| self := manager_O1; log := [] |}).2)
  = [("tbl", InputColumn.STATE_FEATURES,
      {| whitelist_features := Some [1; 2; 3]; feature_overrides := None |});
     ("tbl", InputColumn.ACTION,
      {| whitelist_features := Some [10; 11];
         feature_overrides := Some {[ 10 := "O1"; 11 := "O1" ]} |})].
Proof. vm_compute. reflexivity. Qed.

Example builder_default_used :
  identify_calls
    (log (run_feature_identification caps "tbl" {| self := manager; log := [] |}).2)
  = [("tbl", InputColumn.STATE_FEATURES,
      {| whitelist_features := Some [1; 2; 3]; feature_overrides := None |});
     ("tbl", InputColumn.ACTION,
      {| whitelist_features := Some [10; 11];
         feature_overrides := Some {[ 10 := "O2"; 11 := "O2" ]} |})].
Proof. vm_compute. reflexivity. Qed.

Lemma action_override_precedence_witness :
  ∃ opts fo,
    log (run_feature_identification caps "tbl" {| self := manager_O1; log := [] |}).2
    = [] ++ [state_call "tbl" manager_O1; CallIdentify "tbl" InputColumn.ACTION opts] ∧
    feature_overrides opts = Some fo ∧
    dom fo = list_to_set [10; 11] ∧
    ∀ fid, fid ∈ [10; 11] → fo !! fid = Some "O1".
Proof.
  eapply (action_override_precedence caps "tbl" manager_O1 []);
    [reflexivity | discriminate | reflexivity].
Defined.

(** With no action features the state identification call has already been
    issued when the precondition fails. *)
Lemma empty_action_features_state_call_issued :
  ¬ (action_float_features manager_no_actions = [] →
     identify_calls
       (log (run_feature_identification caps "tbl"
               {| self := manager_no_actions; log := [] |}).2) = []).
Proof. intros Hclaim. specialize (Hclaim eq_refl). vm_compute in Hclaim. discriminate. Qed.

Example empty_action_features_run :
  run_feature_identification caps "tbl" {| self := manager_no_actions; log := [] |}
  = (Raise (AssertionError (Some "You must set action_float_features")),
     {| self := manager_no_actions;
        log := [CallIdentify "tbl" InputColumn.STATE_FEATURES
                  {| whitelist_features := Some [1; 2; 3];
                     feature_overrides := None |}] |}).
Proof. reflexivity. Qed.

Lemma empty_action_features_fail_after_state_call_witness :
  ∃ e,
    run_feature_identification caps "tbl" {| self := manager_no_actions; log := [] |}
    = (Raise e, {| self := manager_no_actions;
                   log := [] ++ [state_call "tbl" manager_no_actions] |}) ∧
    (is_Ok (identify_normalization_parameters caps "tbl" InputColumn.STATE_FEATURES
              (state_identification_options manager_no_actions)) = true →
     e = AssertionError (Some "You must set action_float_features")).
Proof.
  apply (empty_action_features_fail_after_state_call caps "tbl" manager_no_actions []).
  reflexivity.
Defined.

(** With feature overrides pre-set on the action options the state
    identification call has already been issued when the assertion fails. *)
Lemma preset_feature_overrides_state_call_issued :
  ¬ (feature_overrides (or_default (_action_preprocessing_options manager_preset_overrides))
     = Some {[10 := "X"]} →
     identify_calls
       (log (run_feature_identification caps "tbl"
               {| self := manager_preset_overrides; log := [] |}).2) = []).
Proof. intros Hclaim. specialize (Hclaim eq_refl). vm_compute in Hclaim. discriminate. Qed.

Example preset_feature_overrides_run :
  run_feature_identification caps "tbl" {| self := manager_preset_overrides; log := [] |}
  = (Raise (AssertionError None),
     {| self := manager_preset_overrides;
        log := [CallIdentify "tbl" InputColumn.STATE_FEATURES
                  {| whitelist_features := Some [1; 2; 3];
                     feature_overrides := None |}] |}).
Proof. reflexivity. Qed.

Lemma preset_feature_overrides_fail_after_state_call_witness :
  ∃ e,
    run_feature_identification caps "tbl"
      {| self := manager_preset_overrides; log := [] |}
    = (Raise e, {| self := manager_preset_overrides;
                   log := [] ++ [state_call "tbl" manager_preset_overrides] |}) ∧
    (is_Ok (identify_normalization_parameters caps "tbl" InputColumn.STATE_FEATURES
              (state_identification_options manager_preset_overrides)) = true →
     e = AssertionError None).
Proof.
  apply (preset_feature_overrides_fail_after_state_call caps "tbl"
           manager_preset_overrides [] {[10 := "X"]}).
  reflexivity.
Defined.

Lemma whitelist_never_caller_supplied_witness :
  ∃ msg,
    __post_init_post_parse__ fields_preset_whitelist
    = Raise (AssertionError (Some msg)).
Proof.
  apply (proj1 (whitelist_never_caller_supplied caps fields_preset_whitelist)).
  right. exists preset_whitelist, [10]. split; reflexivity.
Defined.

Example construction_rejects_preset_whitelist :
  __post_init_post_parse__ fields_preset_whitelist
  = Raise (AssertionError (Some
      "Please set action whitelist features in action_float_features field of config instead")).
Proof. reflexivity. Qed.

(** Two reads after attaching reward options: one resolver call. *)
Example metrics_to_score_read_twice :
  read_metrics_to_score caps 2
    {| self := attach_reward_options reward_options manager; log := [] |}
  = (Ok [["clicks"]; ["clicks"]],
     {| self := set_metrics_to_score ["clicks"]
                  (attach_reward_options reward_options manager);
        log := [CallGetMetricsToScore (Some {["clicks" := 2]})] |}).
Proof. vm_compute. reflexivity. Qed.

Lemma metrics_to_score_lazy_cached_witness :
  metrics_to_score caps {| self := manager; log := [] |}
  = (Raise (AssertionError None), {| self := manager; log := [] |})
  ∧ ∀ (ro : RewardOptions) (n : nat),
      let v := get_metrics_to_score caps (metric_reward_values ro) in
      ∃ w',
        read_metrics_to_score caps (S n)
          {| self := attach_reward_options ro manager; log := [] |}
        = (Ok (replicate (S n) v), w') ∧
        _metrics_to_score (self w') = Some v ∧
        log w' = [] ++ [CallGetMetricsToScore (metric_reward_values ro)] ∧
        resolver_calls (log w') = resolver_calls [] ++ [metric_reward_values ro].
Proof.
  apply (metrics_to_score_lazy_cached caps base_fields manager []).
  reflexivity.
Defined.

Lemma empty_state_features_valid_witness :
  ∃ d sopts,
    run_feature_identification caps "tbl" {| self := manager_no_state; log := [] |}
    = (Ok d, {| self := manager_no_state;
                log := [] ++ [CallIdentify "tbl" InputColumn.STATE_FEATURES sopts;
                              action_call "tbl" manager_no_state] |}) ∧
    whitelist_features sopts = Some [] ∧
    d !! NormalizationKey.STATE = Some {| dense_normalization_parameters := ∅ |} ∧
    d !! NormalizationKey.ACTION
    = Some {| dense_normalization_parameters :=
                {[ 10 := "params"; 11 := "params" ]} |}.
Proof.
  apply (empty_state_features_valid caps "tbl" manager_no_state []).
  - left. reflexivity.
  - discriminate.
  - reflexivity.
  - intros opts Hw. cbn. unfold stub_identify. rewrite Hw. reflexivity.
  - vm_compute. reflexivity.
Defined.

Lemma train_passes_eval_dataset_through_witness :
  ∃ args,
    driver_calls
      (log (train caps "train_data" None 3 9
              {| self := attach_reward_options reward_options manager;
                 log := [] |}).2)
    = driver_calls [] ++ [args] ∧
    drv_eval_dataset args = None ∧
    drv_train_dataset args = "train_data" ∧
    drv_num_epochs args = 3.
Proof.
  apply (train_passes_eval_dataset_through caps
           (attach_reward_options reward_options manager) []
           "train_data" None 3 9 "trainer" 1 false reward_options
           {| dense_normalization_parameters := ∅ |}
           {| dense_normalization_parameters := ∅ |});
    reflexivity.
Defined.

(** The argument says 9, the manager's field says 7: the driver gets 7. *)
Example train_uses_stored_reader_options :
  drv_reader_options <$>
    driver_calls
      (log (train caps "train_data" None 3 9
              {| self := attach_reward_options reward_options manager;
                 log := [] |}).2)
  = [Some 7].
Proof. vm_compute. reflexivity. Qed.

(** A network that starts in evaluation mode is in training mode after
    [act]. *)
Lemma act_changes_eval_mode_network :
  ¬ (TorchModule.training
       (ActorPolicyWrapper.act echo_forward id id eval_mode_network 5).2
     = TorchModule.training eval_mode_network).
Proof. cbn. discriminate. Qed.

Lemma act_leaves_training_mode_witness :
  ActorPolicyWrapper.act echo_forward id id eval_mode_network 5
  = (Ok (id (id 5)), TorchModule.train eval_mode_network)
  ∧ TorchModule.training (TorchModule.eval eval_mode_network) = false
  ∧ TorchModule.training
      (ActorPolicyWrapper.act echo_forward id id eval_mode_network 5).2 = true
  ∧ (TorchModule.training
       (ActorPolicyWrapper.act echo_forward id id eval_mode_network 5).2
     = TorchModule.training eval_mode_network
     ↔ TorchModule.training eval_mode_network = true).
Proof.
  apply (act_leaves_training_mode echo_forward id id
           eval_mode_network eval_mode_network 5 5).
  reflexivity.
Defined.

(** ** Further runs *)

Lemma identification_failure_propagates_witness :
  (run_feature_identification caps_action_identification_fails "tbl"
     {| self := manager; log := [] |}).1
  = Raise (UpstreamError "table not found")
  ∧ self (run_feature_identification caps_action_identification_fails "tbl"
            {| self := manager; log := [] |}).2 = manager.
Proof.
  apply (identification_failure_propagates caps_action_identification_fails
           "tbl" manager [] (UpstreamError "table not found")).
  right. split_and!; [reflexivity | discriminate | reflexivity | reflexivity].
Defined.

Lemma state_feature_overrides_pass_through_witness :
  ∃ sopts rest,
    log (run_feature_identification caps "tbl"
           {| self := constructed fields_state_overrides; log := [] |}).2
    = [] ++ CallIdentify "tbl" InputColumn.STATE_FEATURES sopts :: rest ∧
    feature_overrides sopts = Some {[1 := "CONTINUOUS"]} ∧
    whitelist_features sopts = Some [1; 2; 3].
Proof.
  apply (state_feature_overrides_pass_through caps fields_state_overrides
           (constructed fields_state_overrides) "tbl" []).
  reflexivity.
Defined.

Lemma action_overrides_one_entry_per_distinct_id_witness :
  ∃ opts fo,
    identify_calls
      (log (run_feature_identification caps "tbl"
              {| self := manager_duplicate_actions; log := [] |}).2)
    = identify_calls []
      ++ [("tbl", InputColumn.STATE_FEATURES,
           state_identification_options manager_duplicate_actions);
          ("tbl", InputColumn.ACTION, opts)] ∧
    whitelist_features opts = Some [10; 10; 11] ∧
    feature_overrides opts = Some fo ∧
    size fo = size (list_to_set [10; 10; 11] : gset Z) ∧
    (size fo ≤ 3)%nat.
Proof.
  eapply (action_overrides_one_entry_per_distinct_id caps "tbl"
            manager_duplicate_actions []);
    [reflexivity | discriminate | reflexivity].
Defined.

Example duplicate_action_ids_two_overrides :
  (λ c, (c.2, size <$> feature_overrides c.2)) <$>
    identify_calls
      (log (run_feature_identification caps "tbl"
              {| self := manager_duplicate_actions; log := [] |}).2)
  = [({| whitelist_features := Some [1; 2; 3]; feature_overrides := None |}, None);
     ({| whitelist_features := Some [10; 10; 11];
         feature_overrides := Some {[ 10 := "O2"; 11 := "O2" ]} |}, Some 2%nat)].
Proof. vm_compute. reflexivity. Qed.

Lemma preset_overrides_constructed_then_rejected_witness :
  ∃ m,
    __post_init_post_parse__ fields_preset_overrides = Ok m ∧
    ∀ (ts : TableSpec) (l : list Event),
      is_Ok (run_feature_identification caps ts {| self := m; log := l |}).1 = false.
Proof.
  apply (preset_overrides_constructed_then_rejected caps fields_preset_overrides
           preset_overrides {[10 := "X"]}); reflexivity.
Defined.

Lemma metrics_to_score_cache_survives_new_reward_options_witness :
  let w1 := (metrics_to_score caps
               {| self := attach_reward_options reward_options manager;
                  log := [] |}).2 in
  metrics_to_score caps
    {| self := attach_reward_options reward_options_views (self w1); log := log w1 |}
  = (Ok (get_metrics_to_score caps (metric_reward_values reward_options)),
     {| self := attach_reward_options reward_options_views (self w1);
        log := [] ++ [CallGetMetricsToScore (metric_reward_values reward_options)] |}).
Proof.
  apply (metrics_to_score_cache_survives_new_reward_options caps base_fields
           manager [] reward_options reward_options_views).
  reflexivity.
Defined.

(** The value read after the change is the one of the first reward options,
    not the one the resolver would give for the new ones. *)
Example stale_metrics_after_new_reward_options :
  let w1 := (metrics_to_score caps
               {| self := attach_reward_options reward_options manager;
                  log := [] |}).2 in
  (metrics_to_score caps
     {| self := attach_reward_options reward_options_views (self w1);
        log := log w1 |}).1 = Ok ["clicks"]
  ∧ get_metrics_to_score caps (metric_reward_values reward_options_views) = ["views"].
Proof. vm_compute. split; reflexivity. Qed.

Lemma metrics_to_score_asserts_before_cache_witness :
  metrics_to_score caps
    {| self := set_metrics_to_score ["clicks"] manager; log := [] |}
  = (Raise (AssertionError None),
     {| self := set_metrics_to_score ["clicks"] manager; log := [] |})
  ∧ _metrics_to_score
      (self (metrics_to_score caps
               {| self := set_metrics_to_score ["clicks"] manager; log := [] |}).2)
    = Some ["clicks"].
Proof.
  apply (metrics_to_score_asserts_before_cache caps
           (set_metrics_to_score ["clicks"] manager) [] ["clicks"]); reflexivity.
Defined.

Lemma train_wires_driver_witness :
  ∃ args pre post,
    log (train caps "train_data" (Some "eval_data") 3 9
           {| self := attach_reward_options reward_options manager; log := [] |}).2
    = [] ++ pre ++ [CallEvaluatorAddObserver (drv_evaluator args) (drv_reporter args);
                    CallDriver args] ++ post ∧
    driver_calls pre = [] ∧ driver_calls post = [] ∧
    drv_trainer args = "trainer" ∧
    drv_use_gpu args = false ∧
    action_names (drv_evaluator args) = None ∧
    gamma (drv_evaluator args) = 1 ∧
    model (drv_evaluator args) = "trainer" ∧
    ev_metrics_to_score (drv_evaluator args)
    = default (get_metrics_to_score caps (metric_reward_values reward_options)) None ∧
    drv_batch_preprocessor args
    = {| state_preprocessor :=
           {| normalization_parameters := ∅; pp_use_gpu := false |};
         action_preprocessor :=
           {| normalization_parameters := ∅; pp_use_gpu := false |};
         bp_use_gpu := false |}.
Proof.
  apply (train_wires_driver caps
           (attach_reward_options reward_options manager) []
           "train_data" (Some "eval_data") 3 9 "trainer" 1 false reward_options
           {| dense_normalization_parameters := ∅ |}
           {| dense_normalization_parameters := ∅ |});
    reflexivity.
Defined.

Lemma train_driver_failure_propagates_witness :
  ∃ calls args,
    train caps_driver_fails "train_data" None 3 9
      {| self := attach_reward_options reward_options manager; log := [] |}
    = (Raise (UpstreamError "out of memory"),
       {| self := set_metrics_to_score
                    (get_metrics_to_score caps_driver_fails
                       (metric_reward_values reward_options))
                    (attach_reward_options reward_options manager);
          log := [] ++ calls |}) ∧
    last calls = Some (CallDriver args) ∧
    CallGenerateReport ActorCriticReporter_new ∉ calls.
Proof.
  apply (train_driver_failure_propagates caps_driver_fails
           (attach_reward_options reward_options manager) []
           "train_data" None 3 9 "trainer" 1 false reward_options
           {| dense_normalization_parameters := ∅ |}
           {| dense_normalization_parameters := ∅ |}
           (UpstreamError "out of memory"));
    reflexivity.
Defined.

Lemma train_without_reward_options_witness :
  train caps "train_data" None 3 9 {| self := manager; log := [] |}
  = (Raise (AssertionError None),
     {| self := manager;
        log := [] ++ [CallTrainerAddObserver "trainer" ActorCriticReporter_new] |}).
Proof.
  apply (train_without_reward_options caps manager [] "train_data" None 3 9
           "trainer" 1); reflexivity.
Defined.

Lemma train_observer_registration_failure_witness :
  train caps_no_observer_support "train_data" None 3 9
    {| self := attach_reward_options reward_options manager; log := [] |}
  = (Raise (UpstreamError "no attribute add_observer"),
     {| self := attach_reward_options reward_options manager;
        log := [] ++ [CallTrainerAddObserver "trainer" ActorCriticReporter_new] |}).
Proof.
  apply (train_observer_registration_failure caps_no_observer_support
           (attach_reward_options reward_options manager) []
           "train_data" None 3 9 "trainer"
           (UpstreamError "no attribute add_observer")); reflexivity.
Defined.

Lemma train_twice_resolves_once_witness :
  let w1 := (train caps "day1" None 3 9
               {| self := attach_reward_options reward_options manager;
                  log := [] |}).2 in
  let w2 := (train caps "day2" (Some "eval") 5 9 w1).2 in
  _metrics_to_score (self w1)
  = Some (get_metrics_to_score caps (metric_reward_values reward_options)) ∧
  resolver_calls (log w2)
  = resolver_calls [] ++ [metric_reward_values reward_options] ∧
  (ev_metrics_to_score ∘ drv_evaluator) <$> driver_calls (log w2)
  = ((ev_metrics_to_score ∘ drv_evaluator) <$> driver_calls [])
    ++ [get_metrics_to_score caps (metric_reward_values reward_options);
        get_metrics_to_score caps (metric_reward_values reward_options)].
Proof.
  apply (train_twice_resolves_once caps
           (attach_reward_options reward_options manager) []
           "day1" "day2" None (Some "eval") 3 5 9 9 "trainer" 1 false reward_options
           {| dense_normalization_parameters := ∅ |}
           {| dense_normalization_parameters := ∅ |});
    reflexivity.
Defined.

Lemma act_forward_failure_leaves_eval_mode_witness :
  ActorPolicyWrapper.act failing_forward id id train_mode_network 5
  = (Raise (UpstreamError "shape mismatch"), TorchModule.eval train_mode_network)
  ∧ TorchModule.training
      (ActorPolicyWrapper.act failing_forward id id train_mode_network 5).2 = false.
Proof.
  apply (act_forward_failure_leaves_eval_mode failing_forward id id
           train_mode_network (TorchModule.eval train_mode_network) 5
           (UpstreamError "shape mismatch")); reflexivity.
Defined.

Lemma act_independent_of_starting_mode_witness :
  ActorPolicyWrapper.act echo_forward id id train_mode_network 5
  = ActorPolicyWrapper.act echo_forward id id eval_mode_network 5.
Proof.
  apply (act_independent_of_starting_mode echo_forward id id
           train_mode_network eval_mode_network 5); reflexivity.
Defined.


End Runs.
